(** * Dual-channel network client of the ATC GUI

    Shallow embedding of [gui/atc_gui/utils/udp_client.py] (class
    [UdpClient]) and [gui/atc_gui/utils/network_manager.py] (class
    [NetworkManager]), and the properties of the reconnect state machine,
    of the datagram demultiplexer and of the response routing.

    Python objects are records, methods are computations in a small state
    and exception monad that also collects the observable effects (log
    records, emitted Qt signals, calls on collaborators).  A raised
    exception keeps the state it was raised in, as in Python. *)

From Stdlib Require Import ZArith NArith List String Bool Lia.
From Stdlib Require Import Init.Byte.
Import ListNotations.

Set Implicit Arguments.

(** ** Python values, exceptions and the method monad *)

Module Py.

(** The exception classes the modelled calls raise.  All of them derive
    from [Exception], the class the [except] clause of the receive loop
    names. *)
Inductive exception : Type :=
| AttributeError (type_name attr : string)
| OSError
| ValueError
| UnicodeDecodeError
| RuntimeError
| TypeError
| OverflowError
| cv2_error.

Inductive outcome (A : Type) : Type :=
| Returned (a : A)
| Raised (e : exception).

Arguments Returned {A} a.
Arguments Raised {A} e.

Definition is_raised {A} (o : outcome A) : bool :=
  match o with Raised _ => true | Returned _ => false end.

(** What a method call or an attribute read evaluates to. *)
Inductive value : Type :=
| None_
| Bool_ (b : bool).

(** Truth value testing: [None] and [False] are false. *)
Definition truthy (v : value) : bool :=
  match v with None_ => false | Bool_ b => b end.

Section Monad.
Context {S E : Type}.

(** A method body: from the object's state to an outcome, the state it
    leaves and the effects it performed, oldest first. *)
Definition M (A : Type) : Type := S -> outcome A * S * list E.

Definition ret {A} (a : A) : M A := fun s => (Returned a, s, []).

Definition raise {A} (e : exception) : M A := fun s => (Raised e, s, []).

Definition bind {A B} (m : M A) (k : A -> M B) : M B :=
  fun s =>
    match m s with
    | (Returned a, s1, t1) =>
        match k a s1 with (o, s2, t2) => (o, s2, t1 ++ t2) end
    | (Raised e, s1, t1) => (Raised e, s1, t1)
    end.

Definition get : M S := fun s => (Returned s, s, []).

Definition modify (f : S -> S) : M unit := fun s => (Returned tt, f s, []).

Definition tell (e : E) : M unit := fun s => (Returned tt, s, [e]).

(** [try: m  except Exception as e: h e] *)
Definition try_except {A} (m : M A) (h : exception -> M A) : M A :=
  fun s =>
    match m s with
    | (Returned a, s1, t1) => (Returned a, s1, t1)
    | (Raised e, s1, t1) =>
        match h e s1 with (o, s2, t2) => (o, s2, t1 ++ t2) end
    end.

Definition result {A} (r : outcome A * S * list E) : outcome A := fst (fst r).
Definition state_of {A} (r : outcome A * S * list E) : S := snd (fst r).
Definition effects {A} (r : outcome A * S * list E) : list E := snd r.
End Monad.

Arguments M : clear implicits.

Declare Scope py_scope.
Delimit Scope py_scope with py.
Notation "x <- m ;; k" := (bind m (fun x => k))
  (at level 61, m at next level, right associativity) : py_scope.
Notation "m ;; k" := (bind m (fun _ => k))
  (at level 61, right associativity) : py_scope.

(** *** [bytes] *)

Definition bytes : Type := list byte.

Fixpoint startswith (p l : bytes) : bool :=
  match p, l with
  | [], _ => true
  | _ :: _, [] => false
  | a :: p', b :: l' => Byte.eqb a b && startswith p' l'
  end.

(** Scan of [bytes.split(sep)] for a non-empty [sep]: [cur] is the part
    being collected (reversed), [skip] the number of bytes of a separator
    just matched that are still to be passed over. *)
Fixpoint split_scan (sep : bytes) (skip : nat) (cur : bytes) (l : bytes)
  : list bytes :=
  match l with
  | [] => [rev cur]
  | b :: tl =>
      match skip with
      | S k => split_scan sep k cur tl
      | O =>
          if startswith sep l
          then rev cur :: split_scan sep (List.length sep - 1) [] tl
          else split_scan sep 0 (b :: cur) tl
      end
  end.

(** [data.split(sep)]: an empty separator is a [ValueError]. *)
Definition split (data sep : bytes) : outcome (list bytes) :=
  match sep with
  | [] => Raised ValueError
  | _ :: _ => Returned (split_scan sep 0 [] data)
  end.

(** [sep.join(parts)] *)
Fixpoint join (sep : bytes) (parts : list bytes) : bytes :=
  match parts with
  | [] => []
  | p :: tl =>
      match tl with
      | [] => p
      | _ :: _ => p ++ sep ++ join sep tl
      end
  end.

(** *** [bytes.decode('utf-8')], strict *)

(** A [str] is its sequence of code points. *)
Definition str : Type := list N.

Definition between (lo hi : N) (b : byte) : bool :=
  (lo <=? Byte.to_N b)%N && (Byte.to_N b <=? hi)%N.

Definition low6 (b : byte) : N := (Byte.to_N b - 128)%N.

Definition cons_to (c : N) (r : outcome str) : outcome str :=
  match r with
  | Returned s => Returned (c :: s)
  | Raised e => Raised e
  end.

Fixpoint decode_utf8 (l : bytes) : outcome str :=
  match l with
  | [] => Returned []
  | b0 :: t0 =>
      let n0 := Byte.to_N b0 in
      if (n0 <=? 127)%N then cons_to n0 (decode_utf8 t0)
      else if between 194 223 b0 then
        match t0 with
        | b1 :: t1 =>
            if between 128 191 b1
            then cons_to ((n0 - 192) * 64 + low6 b1)%N (decode_utf8 t1)
            else Raised UnicodeDecodeError
        | _ => Raised UnicodeDecodeError
        end
      else if between 224 239 b0 then
        match t0 with
        | b1 :: b2 :: t2 =>
            let lo := if (n0 =? 224)%N then 160%N else 128%N in
            let hi := if (n0 =? 237)%N then 159%N else 191%N in
            if between lo hi b1 && between 128 191 b2
            then cons_to ((n0 - 224) * 4096 + low6 b1 * 64 + low6 b2)%N
                         (decode_utf8 t2)
            else Raised UnicodeDecodeError
        | _ => Raised UnicodeDecodeError
        end
      else if between 240 244 b0 then
        match t0 with
        | b1 :: b2 :: b3 :: t3 =>
            let lo := if (n0 =? 240)%N then 144%N else 128%N in
            let hi := if (n0 =? 244)%N then 143%N else 191%N in
            if between lo hi b1 && between 128 191 b2 && between 128 191 b3
            then cons_to ((n0 - 240) * 262144 + low6 b1 * 4096
                          + low6 b2 * 64 + low6 b3)%N
                         (decode_utf8 t3)
            else Raised UnicodeDecodeError
        | _ => Raised UnicodeDecodeError
        end
      else Raised UnicodeDecodeError
  end.

Definition str_eqb (a b : str) : bool :=
  if list_eq_dec N.eq_dec a b then true else false.

(** [sep in data] *)
Fixpoint contains (sep l : bytes) : bool :=
  match l with
  | [] => startswith sep []
  | _ :: tl => startswith sep l || contains sep tl
  end.

End Py.

Import Py.
Local Open Scope py_scope.

(** ** The logger of [utils.logger] *)

Module Logger.

Inductive level : Type := INFO | WARNING | ERROR.

Inductive camera : Type := CCTV_A | CCTV_B.

(** One constructor per message text of the two source files, with the
    values its f-string interpolates. *)
Inductive message : Type :=
| udp_connected                              (* udp_client.py:37 *)
| udp_connect_failed (e : exception)         (* udp_client.py:41 *)
| udp_disconnected                           (* udp_client.py:50 *)
| unknown_camera_id (camera_id : str)        (* udp_client.py:86 *)
| frame_receive_error (e : exception)        (* udp_client.py:89 *)
| services_starting                          (* network_manager.py:66 *)
| services_stopping                          (* network_manager.py:72 *)
| max_reconnect_exceeded                     (* network_manager.py:79 *)
| reconnecting (attempt maximum : Z)         (* network_manager.py:83 *)
| map_response_ok                            (* network_manager.py:118 *)
| map_response_error (response : string)     (* network_manager.py:120 *)
| cctv_approved (c : camera)                 (* network_manager.py:125,135 *)
| cctv_denied (c : camera) (response : string). (* network_manager.py:130,140 *)

End Logger.

Import Logger.

(** ** [UdpClient] (udp_client.py) *)

Module Udp.

(** A decoded image, [frame.shape = (height, width, channel)]. *)
Record ndarray : Type := {
  height : Z;
  width : Z;
  channel : Z;
  data : bytes }.

Inductive image_format : Type := Format_RGB888.

Record QImage : Type := {
  q_data : bytes;
  q_width : Z;
  q_height : Z;
  q_bytes_per_line : Z;
  q_format : image_format }.

(** [cv2.cvtColor(frame, cv2.COLOR_BGR2RGB)] on the pixel bytes. *)
Fixpoint bgr2rgb (l : bytes) : bytes :=
  match l with
  | b :: g :: r :: tl => r :: g :: b :: bgr2rgb tl
  | _ => l
  end.

Definition cvtColor_BGR2RGB (f : ndarray) : ndarray :=
  {| height := height f; width := width f; channel := channel f;
     data := bgr2rgb (data f) |}.

(** Lines 76-78. *)
Definition to_QImage (frame : ndarray) : QImage :=
  let bytes_per_line := (3 * width frame)%Z in
  {| q_data := data frame; q_width := width frame; q_height := height frame;
     q_bytes_per_line := bytes_per_line; q_format := Format_RGB888 |}.

Record Socket : Type := { bound : bool }.

Record Thread : Type := { daemon : bool; started : bool }.

Record UdpClient : Type := {
  socket : option Socket;
  is_running : bool;
  receive_thread : option Thread }.

Definition set_socket (v : option Socket) (c : UdpClient) : UdpClient :=
  {| socket := v; is_running := is_running c;
     receive_thread := receive_thread c |}.

Definition set_is_running (v : bool) (c : UdpClient) : UdpClient :=
  {| socket := socket c; is_running := v;
     receive_thread := receive_thread c |}.

Definition set_receive_thread (v : option Thread) (c : UdpClient) : UdpClient :=
  {| socket := socket c; is_running := is_running c; receive_thread := v |}.

(** The two signals the class declares (lines 15-16). *)
Inductive signal : Type :=
| frame_a_received (q : QImage)
| frame_b_received (q : QImage).

Inductive effect : Type :=
| Log (l : level) (m : message)
| Emit (s : signal)
| Close                          (* socket.close() *)
| Start.                         (* receive_thread.start() *)

Definition is_emit (e : effect) : bool :=
  match e with Emit _ => true | _ => false end.

Definition is_log_at (l : level) (e : effect) : bool :=
  match e, l with
  | Log INFO _, INFO | Log WARNING _, WARNING | Log ERROR _, ERROR => true
  | _, _ => false
  end.

(** [__init__], lines 18-23. *)
Definition init : UdpClient :=
  {| socket := None; is_running := false; receive_thread := None |}.

(** What the operating system answers to the calls of [connect]. *)
Inductive os_connect : Type :=
| socket_raises (e : exception)   (* socket.socket(...) raises *)
| bind_raises (e : exception)     (* bind raises, e.g. address in use *)
| start_raises (e : exception)    (* Thread.start raises *)
| bind_succeeds.

Definition lift {S E A} (o : outcome A) : M S E A :=
  match o with Returned a => ret a | Raised e => raise e end.

(** [connect], lines 25-42. *)
Definition connect (os : os_connect) : M UdpClient effect value :=
  try_except
    (match os with
     | socket_raises e => raise e
     | _ => modify (set_socket (Some {| bound := false |}))
     end ;;
     match os with
     | bind_raises e => raise e
     | _ => modify (set_socket (Some {| bound := true |}))
     end ;;
     modify (set_is_running true) ;;
     modify (set_receive_thread (Some {| daemon := false; started := false |})) ;;
     modify (set_receive_thread (Some {| daemon := true; started := false |})) ;;
     match os with
     | start_raises e => raise e
     | _ => modify (set_receive_thread (Some {| daemon := true; started := true |})) ;;
            tell Start
     end ;;
     tell (Log INFO udp_connected) ;;
     ret (Bool_ true))
    (fun e =>
       tell (Log ERROR (udp_connect_failed e)) ;;
       ret (Bool_ false)).

(** [disconnect], lines 44-50. *)
Definition disconnect : M UdpClient effect value :=
  modify (set_is_running false) ;;
  c <- get ;;
  match socket c with
  | Some _ => tell Close ;; modify (set_socket None)
  | None => ret tt
  end ;;
  tell (Log INFO udp_disconnected) ;;
  ret None_.

(** What [self.socket.recvfrom(...)] does in one iteration. *)
Inductive recv_result : Type :=
| recv_returns (data : bytes)
| recv_raises (e : exception).

Definition camera_A : str := [65%N].
Definition camera_B : str := [66%N].

Section ReceiveLoop.
(** [Constants.UDP_DATA_SEPARATOR.encode()]; config/constants.py is not
    part of the sources. *)
Variable UDP_DATA_SEPARATOR : bytes.

(** [cv2.imdecode(np.frombuffer(image_data, np.uint8), cv2.IMREAD_COLOR)]:
    an image, [None] when the payload is no image, or an OpenCV error. *)
Variable imdecode : bytes -> outcome (option ndarray).

(** The body of the [try], lines 56-86. *)
Definition receive_one (r : recv_result) : M UdpClient effect unit :=
  c <- get ;;
  match socket c with
  | None => raise (AttributeError "NoneType" "recvfrom")
  | Some _ =>
      match r with
      | recv_raises e => raise e
      | recv_returns data =>
          parts <- lift (split data UDP_DATA_SEPARATOR) ;;
          match parts with
          | [camera_id; image_data] =>
              camera_id <- lift (decode_utf8 camera_id) ;;
              frame <- lift (imdecode image_data) ;;
              match frame with
              | Some frame =>
                  let frame := cvtColor_BGR2RGB frame in
                  let q_image := to_QImage frame in
                  if str_eqb camera_id camera_A
                  then tell (Emit (frame_a_received q_image))
                  else if str_eqb camera_id camera_B
                  then tell (Emit (frame_b_received q_image))
                  else tell (Log WARNING (unknown_camera_id camera_id))
              | None => ret tt
              end
          | _ => ret tt                   (* continue, line 62 *)
          end
      end
  end.

(** One pass through the loop body, lines 55-90. *)
Definition iteration (r : recv_result) : M UdpClient effect unit :=
  try_except (receive_one r)
             (fun e => tell (Log ERROR (frame_receive_error e))).

(** What happens while the receive thread is inside a pass of the loop,
    that is after a test of [self.is_running] that succeeded: [recvfrom]
    returns or raises, which lets the pass go on to its end, or the owner
    of the client runs [disconnect()] meanwhile, with the thread still
    inside [recvfrom]. *)
Inductive thread_event : Type :=
| Recv (r : recv_result)
| Disconnect.

Inductive loop_status : Type :=
| Exited          (* the while test failed, the thread function returned *)
| Blocked.        (* waiting in recvfrom, no more events given *)

(** The pass of a thread that read [self.socket] when the client was
    [c0]: it handles what [recvfrom] does as lines 57-89 would in [c0],
    whatever the owner has made of the client since, and does not itself
    touch the client. *)
Definition pass (c0 : UdpClient) (r : recv_result) : M UdpClient effect unit :=
  fun c => match iteration r c0 with (o, _, t) => (o, c, t) end.

(** The loop from inside the pass that began when the client was [c0].
    A [disconnect()] of the owner does not end the pass: what the pending
    [recvfrom] then does is still handled, and only the next test of the
    flag (line 54) ends the loop. *)
Fixpoint receive_passes (c0 : UdpClient) (evs : list thread_event)
  : M UdpClient effect loop_status :=
  fun c =>
    match evs with
    | [] => ret Blocked c
    | Recv r :: evs' =>
        (pass c0 r ;;
         (fun c1 =>
            if is_running c1 then receive_passes c1 evs' c1
            else ret Exited c1)) c
    | Disconnect :: evs' => (disconnect ;; receive_passes c0 evs') c
    end.

(** [_receive_frames], lines 52-90, driven by the events of its
    environment. *)
Definition _receive_frames (evs : list thread_event)
  : M UdpClient effect loop_status :=
  fun c => if is_running c then receive_passes c evs c else ret Exited c.

(** A datagram is valid when it splits around the separator into exactly
    a camera id and a payload and the id is one of the known ones. *)
Definition valid_datagram (data : bytes) : bool :=
  match split data UDP_DATA_SEPARATOR with
  | Returned [camera_id; _] =>
      match decode_utf8 camera_id with
      | Returned c => str_eqb c camera_A || str_eqb c camera_B
      | Raised _ => false
      end
  | _ => false
  end.

(** The datagrams whose drop is logged at warning level: two parts, a
    camera id that decodes, and a payload that decodes to an image. *)
Definition warned_datagram (data : bytes) : bool :=
  match split data UDP_DATA_SEPARATOR with
  | Returned [camera_id; image_data] =>
      match decode_utf8 camera_id, imdecode image_data with
      | Returned _, Returned (Some _) => true
      | _, _ => false
      end
  | _ => false
  end.

(** The log record with which an invalid datagram is dropped, if any:
    none when the number of parts is not 2 or the payload is no image, an
    error record when the separator is empty, the camera id is no UTF-8
    or the decoder raises, a warning for an unknown camera id with a
    payload that decodes. *)
Definition drop_record (data : bytes) : list effect :=
  match split data UDP_DATA_SEPARATOR with
  | Raised e => [Log ERROR (frame_receive_error e)]
  | Returned [camera_id; image_data] =>
      match decode_utf8 camera_id with
      | Raised e => [Log ERROR (frame_receive_error e)]
      | Returned id =>
          match imdecode image_data with
          | Raised e => [Log ERROR (frame_receive_error e)]
          | Returned None => []
          | Returned (Some _) => [Log WARNING (unknown_camera_id id)]
          end
      end
  | Returned _ => []
  end.

(** The loop from a first event on, in terms of the loop on the rest. *)
Definition then_loop (first : outcome unit * UdpClient * list effect)
    (evs : list thread_event)
  : outcome loop_status * UdpClient * list effect :=
  let rest := _receive_frames evs (state_of first) in
  (result rest, state_of rest, effects first ++ effects rest).
End ReceiveLoop.

(** The attributes a [UdpClient] instance has: the class body and
    [__init__].  [QObject] adds none of the names the manager uses. *)
Inductive attribute : Type :=
| a_signal_frame_a | a_signal_frame_b
| a_settings | a_socket | a_is_running | a_receive_thread
| a_connect | a_disconnect | a_receive_frames.

Definition attributes : list (string * attribute) :=
  [ ("frame_a_received", a_signal_frame_a);
    ("frame_b_received", a_signal_frame_b);
    ("settings", a_settings);
    ("socket", a_socket);
    ("is_running", a_is_running);
    ("receive_thread", a_receive_thread);
    ("connect", a_connect);
    ("disconnect", a_disconnect);
    ("_receive_frames", a_receive_frames) ]%string.

Fixpoint assoc {A} (name : string) (l : list (string * A)) : option A :=
  match l with
  | [] => None
  | (k, v) :: tl => if String.eqb k name then Some v else assoc name tl
  end.

(** [getattr(udp_client, name)] *)
Definition getattr (name : string) : outcome attribute :=
  match assoc name attributes with
  | Some a => Returned a
  | None => Raised (AttributeError "UdpClient" name)
  end.

(** Calling the attribute with no arguments, as the manager does.  A
    signal or a field is not callable.  The manager never calls the thread
    target, whose run by the caller is not modelled here. *)
Definition invoke (a : attribute) (os : os_connect)
  : M UdpClient effect value :=
  match a with
  | a_connect => connect os
  | a_disconnect => disconnect
  | a_receive_frames => raise RuntimeError
  | _ => raise TypeError
  end.

(** *** Concrete inputs *)

(** A one-byte separator, a payload decoder that finds no image and one
    that finds a single black pixel, and a client after a successful
    [connect()]. *)
Definition colon : bytes := [x3a].

Definition no_image (_ : bytes) : outcome (option ndarray) := Returned None.

Definition one_pixel (_ : bytes) : outcome (option ndarray) :=
  Returned (Some {| height := 1; width := 1; channel := 3;
                    data := [x00; x00; x00] |}).

Definition running_client : UdpClient :=
  {| socket := Some {| bound := true |}; is_running := true;
     receive_thread := Some {| daemon := true; started := true |} |}.

(** The invalid datagram "C:" followed by a byte, whose payload decodes:
    the one case with a warning. *)
Definition camera_c_datagram : bytes := [x43; x3a; xff].

Definition camera_a_datagram : bytes := [x41; x3a; xff].

(** A datagram with a camera id that is no UTF-8, the disconnect, and
    the failure of the pending [recvfrom] on the closed socket, after
    which the loop ends. *)
Definition last_events : list thread_event :=
  [Recv (recv_returns [xff; x3a; x00]); Disconnect; Recv (recv_raises OSError)].

(** *** Vocabulary of the further properties *)

Definition is_close (e : effect) : bool :=
  match e with Close => true | _ => false end.

(** The two camera ids on the wire, [b'A'] and [b'B'], and the signal
    lines 81-84 choose for each. *)
Definition camera_bytes (a : bool) : bytes := if a then [x41] else [x42].

Definition camera_signal (a : bool) (q : QImage) : signal :=
  if a then frame_a_received q else frame_b_received q.

(** A client as a failed thread start leaves it. *)
Definition unstarted_client : UdpClient :=
  {| socket := Some {| bound := true |}; is_running := true;
     receive_thread := Some {| daemon := true; started := false |} |}.

End Udp.

(** ** [NetworkManager] (network_manager.py) *)

Module Net.

Import Udp.

(** Modelled from the spec: the control channel client [TcpClient] of
    utils/tcp_client.py, which is not part of the sources.  [is_connected()]
    is a snapshot of its state; [connect()] is asynchronous and reports
    through a lifecycle event; [disconnect()] tears the connection down. *)
Record TcpClient : Type := { connected : bool }.

(** The calls the manager makes on the control channel client. *)
Inductive tcp_call : Type :=
| connect_to_server
| disconnect_from_server
| tcp_request_map
| tcp_request_cctv_a
| tcp_request_cctv_b
| tcp_request_object_detail (object_id : Z).

(** [QTimer]: [start(msec)] arms or re-arms the one timer, [stop()]
    disarms it; [timeout] fires only while it is active.  [start] takes a
    C int: for an interval outside its range the call raises
    [OverflowError] and the timer is left as it was; a negative interval
    is replaced by 1 ms. *)
Record QTimer : Type := { active : bool; interval : Z }.

Definition fits_c_int (z : Z) : bool :=
  (-2147483648 <=? z)%Z && (z <=? 2147483647)%Z.

Definition armed_timer (msec : Z) : QTimer :=
  {| active := true; interval := if (msec <? 0)%Z then 1%Z else msec |}.

Definition QTimer_start (msec : Z) (t : QTimer) : outcome QTimer :=
  if fits_c_int msec then Returned (armed_timer msec)
  else Raised OverflowError.

Definition QTimer_stop (t : QTimer) : QTimer :=
  {| active := false; interval := interval t |}.

Record NetworkManager : Type := {
  tcp_client : TcpClient;
  udp_client : UdpClient;
  reconnect_timer : QTimer;
  reconnect_interval : Z;
  max_reconnect_attempts : Z;
  reconnect_attempts : Z }.

Definition set_tcp_client (v : TcpClient) (s : NetworkManager) :=
  {| tcp_client := v; udp_client := udp_client s;
     reconnect_timer := reconnect_timer s;
     reconnect_interval := reconnect_interval s;
     max_reconnect_attempts := max_reconnect_attempts s;
     reconnect_attempts := reconnect_attempts s |}.

Definition set_udp_client (v : UdpClient) (s : NetworkManager) :=
  {| tcp_client := tcp_client s; udp_client := v;
     reconnect_timer := reconnect_timer s;
     reconnect_interval := reconnect_interval s;
     max_reconnect_attempts := max_reconnect_attempts s;
     reconnect_attempts := reconnect_attempts s |}.

Definition set_reconnect_timer (v : QTimer) (s : NetworkManager) :=
  {| tcp_client := tcp_client s; udp_client := udp_client s;
     reconnect_timer := v;
     reconnect_interval := reconnect_interval s;
     max_reconnect_attempts := max_reconnect_attempts s;
     reconnect_attempts := reconnect_attempts s |}.

Definition set_reconnect_attempts (v : Z) (s : NetworkManager) :=
  {| tcp_client := tcp_client s; udp_client := udp_client s;
     reconnect_timer := reconnect_timer s;
     reconnect_interval := reconnect_interval s;
     max_reconnect_attempts := max_reconnect_attempts s;
     reconnect_attempts := v |}.

(** The reason texts of the control-channel status signal. *)
Inductive reason : Type :=
| tcp_connected_text                        (* line 96 *)
| tcp_disconnected_text                     (* line 102 *)
| tcp_error_text (error_msg : string).      (* line 106 *)

Section Manager.
(** [models.detected_object.DetectedObject], passed through unchanged. *)
Variable DetectedObject : Type.

(** What the operating system would answer should the method being run
    reach [UdpClient.connect()]. *)
Variable os : os_connect.

(** The signals of the class that the modelled methods emit or forward
    (lines 14-23). *)
Inductive signal : Type :=
| object_detected (o : DetectedObject)
| frame_a_received (q : QImage)
| frame_b_received (q : QImage)
| tcp_connection_status_changed (up : bool) (why : reason)
| udp_connection_status_changed (up : bool) (why : string).

Inductive effect : Type :=
| Log (l : level) (m : message)
| Emit (g : signal)
| Tcp (c : tcp_call)                 (* a call on self.tcp_client *)
| UdpCall (name : string)            (* a call on self.udp_client *)
| InUdp (e : Udp.effect).            (* what that call did *)

Definition Mgr : Type -> Type := M NetworkManager effect.

(** Running a [UdpClient] method on [self.udp_client]. *)
Definition on_udp {A} (m : M UdpClient Udp.effect A) : Mgr A :=
  fun s =>
    match m (udp_client s) with
    | (o, u, t) => (o, set_udp_client u s, map InUdp t)
    end.

(** [self.udp_client.<name>()]: the attribute is looked up, then
    called. *)
Definition udp_call (name : string) : Mgr value :=
  a <- lift (Udp.getattr name) ;;
  tell (UdpCall name) ;;
  on_udp (Udp.invoke a os).

(** [self.tcp_client.is_connected()] *)
Definition tcp_is_connected : Mgr bool :=
  s <- get ;; ret (connected (tcp_client s)).

(** A call on [self.tcp_client].  Modelled from the spec: of the calls
    only [disconnect_from_server()] changes what [is_connected()] answers;
    what a connect attempt or a request leads to arrives later, as an
    event. *)
Definition tcp (c : tcp_call) : Mgr unit :=
  tell (Tcp c) ;;
  match c with
  | disconnect_from_server =>
      modify (set_tcp_client {| connected := false |})
  | _ => ret tt
  end.

Definition timer_start (msec : Z) : Mgr unit :=
  s <- get ;;
  t <- lift (QTimer_start msec (reconnect_timer s)) ;;
  modify (set_reconnect_timer t).

Definition timer_stop : Mgr unit :=
  modify (fun s => set_reconnect_timer (QTimer_stop (reconnect_timer s)) s).

(** The UDP half of [_connect_signals], lines 57-62: the three
    attributes read from [self.udp_client]. *)
Definition _connect_signals : outcome unit :=
  match Udp.getattr "frame_a_received" with
  | Raised e => Raised e
  | Returned _ =>
      match Udp.getattr "frame_b_received" with
      | Raised e => Raised e
      | Returned _ =>
          match Udp.getattr "connection_status_changed" with
          | Raised e => Raised e
          | Returned _ => Returned tt
          end
      end
  end.

(** [__init__], lines 25-37, from the two settings it reads. *)
Definition init (settings_reconnect_interval settings_max_reconnect_attempts : Z)
  : outcome NetworkManager :=
  match _connect_signals with
  | Raised e => Raised e
  | Returned _ =>
      Returned
        {| tcp_client := {| connected := false |};
           udp_client := Udp.init;
           reconnect_timer := {| active := false; interval := 0 |};
           reconnect_interval := settings_reconnect_interval * 1000;
           max_reconnect_attempts := settings_max_reconnect_attempts;
           reconnect_attempts := 0 |}
  end.

(** Lines 58-59: the frame signals of the client are connected to the
    signals of the same name of the manager. *)
Definition forward (g : Udp.signal) : signal :=
  match g with
  | Udp.frame_a_received q => frame_a_received q
  | Udp.frame_b_received q => frame_b_received q
  end.

(** [start_services], lines 64-68. *)
Definition start_services : Mgr unit :=
  tell (Log INFO services_starting) ;;
  tcp connect_to_server.

(** [stop_services], lines 70-74. *)
Definition stop_services : Mgr unit :=
  tell (Log INFO services_stopping) ;;
  tcp disconnect_from_server ;;
  _ <- udp_call "disconnect" ;;
  ret tt.

(** [_attempt_reconnect], lines 76-92. *)
Definition _attempt_reconnect : Mgr unit :=
  s <- get ;;
  if (reconnect_attempts s >=? max_reconnect_attempts s)%Z then
    tell (Log WARNING max_reconnect_exceeded) ;;
    timer_stop ;;
    ret tt
  else
    tell (Log INFO (reconnecting (reconnect_attempts s + 1)
                                 (max_reconnect_attempts s))) ;;
    modify (fun s => set_reconnect_attempts (reconnect_attempts s + 1) s) ;;
    up <- tcp_is_connected ;;
    (if negb up then tcp connect_to_server else ret tt) ;;
    up <- udp_call "is_connected" ;;
    if negb (truthy up)
    then _ <- udp_call "connect" ;; ret tt
    else ret tt.

(** [_on_tcp_connected], lines 94-98. *)
Definition _on_tcp_connected : Mgr unit :=
  tell (Emit (tcp_connection_status_changed true tcp_connected_text)) ;;
  timer_stop ;;
  modify (set_reconnect_attempts 0).

(** [_on_tcp_disconnected], lines 100-102. *)
Definition _on_tcp_disconnected : Mgr unit :=
  tell (Emit (tcp_connection_status_changed false tcp_disconnected_text)).

(** [_on_tcp_connection_error], lines 104-108. *)
Definition _on_tcp_connection_error (error_msg : string) : Mgr unit :=
  tell (Emit (tcp_connection_status_changed false (tcp_error_text error_msg))) ;;
  modify (set_reconnect_attempts 0) ;;
  s <- get ;;
  timer_start (reconnect_interval s).

(** [for x in xs: body x] *)
Fixpoint for_each {A} (xs : list A) (body : A -> Mgr unit) : Mgr unit :=
  match xs with
  | [] => ret tt
  | x :: tl => body x ;; for_each tl body
  end.

(** [_handle_object_detected], lines 110-113. *)
Definition _handle_object_detected (objects : list DetectedObject) : Mgr unit :=
  for_each objects (fun obj => tell (Emit (object_detected obj))).

(** [_handle_map_response], lines 115-120. *)
Definition _handle_map_response (response : string) : Mgr unit :=
  if String.prefix "OK" response
  then tell (Log INFO map_response_ok)
  else tell (Log ERROR (map_response_error response)).

(** [_handle_cctv_a_response] and [_handle_cctv_b_response], lines
    122-140; the two differ in the log text only. *)
Definition _handle_cctv_response (c : camera) (response : string)
  : Mgr unit :=
  if String.eqb response "OK" then
    tell (Log INFO (cctv_approved c)) ;;
    up <- udp_call "is_connected" ;;
    (if negb (truthy up)
     then _ <- udp_call "connect" ;; ret tt
     else ret tt) ;;
    _ <- udp_call "start_streaming" ;;
    ret tt
  else
    tell (Log ERROR (cctv_denied c response)).

Definition _handle_cctv_a_response := _handle_cctv_response CCTV_A.
Definition _handle_cctv_b_response := _handle_cctv_response CCTV_B.

(** [request_cctv_a] and [request_cctv_b], lines 143-153. *)
Definition request_cctv (c : camera) : Mgr unit :=
  up <- udp_call "is_connected" ;;
  (if negb (truthy up)
   then _ <- udp_call "connect" ;; ret tt
   else ret tt) ;;
  tcp (match c with CCTV_A => tcp_request_cctv_a | CCTV_B => tcp_request_cctv_b end).

Definition request_cctv_a := request_cctv CCTV_A.
Definition request_cctv_b := request_cctv CCTV_B.

(** [request_object_detail], lines 155-156. *)
Definition request_object_detail (object_id : Z) : Mgr unit :=
  tcp (tcp_request_object_detail object_id).

(** [request_map], lines 158-163.  [self.udp_client] is an object, so
    the test of line 162 succeeds. *)
Definition request_map : Mgr unit :=
  tcp tcp_request_map ;;
  _ <- udp_call "stop_streaming" ;;
  ret tt.

(** *** The manager as a state machine *)

(** What reaches the manager: the timer signal, the signals of the
    control channel client, and the calls of the user interface. *)
Inductive event : Type :=
| timeout
| tcp_connected
| tcp_disconnected
| tcp_connection_error (error_msg : string)
| tcp_object_detected (objects : list DetectedObject)
| tcp_map_response (response : string)
| tcp_cctv_a_response (response : string)
| tcp_cctv_b_response (response : string)
| ui_start_services
| ui_stop_services
| ui_request_cctv_a
| ui_request_cctv_b
| ui_request_object_detail (object_id : Z)
| ui_request_map.

(** The slot or method an event runs (lines 34 and 42-55).  The timer
    delivers [timeout] only while it is active.  Modelled from the spec:
    the control channel client is connected when it emits [connected]
    and is not when it emits [disconnected] or [connection_error]. *)
Definition handle (ev : event) : Mgr unit :=
  match ev with
  | timeout =>
      s <- get ;;
      if active (reconnect_timer s) then _attempt_reconnect else ret tt
  | tcp_connected =>
      modify (set_tcp_client {| connected := true |}) ;; _on_tcp_connected
  | tcp_disconnected =>
      modify (set_tcp_client {| connected := false |}) ;; _on_tcp_disconnected
  | tcp_connection_error error_msg =>
      modify (set_tcp_client {| connected := false |}) ;;
      _on_tcp_connection_error error_msg
  | tcp_object_detected objects => _handle_object_detected objects
  | tcp_map_response response => _handle_map_response response
  | tcp_cctv_a_response response => _handle_cctv_a_response response
  | tcp_cctv_b_response response => _handle_cctv_b_response response
  | ui_start_services => start_services
  | ui_stop_services => stop_services
  | ui_request_cctv_a => request_cctv_a
  | ui_request_cctv_b => request_cctv_b
  | ui_request_object_detail object_id => request_object_detail object_id
  | ui_request_map => request_map
  end.

(** A sequence of events.  An exception that leaves a slot ends that
    slot only, and the state it left is the state the next event finds:
    the run of an application whose except hook lets it go on. *)
Fixpoint run (evs : list event) (s : NetworkManager)
  : NetworkManager * list effect :=
  match evs with
  | [] => (s, [])
  | ev :: tl =>
      let r := handle ev s in
      let r' := run tl (state_of r) in
      (fst r', effects r ++ snd r')
  end.

Definition is_connect_attempt (e : effect) : bool :=
  match e with Tcp connect_to_server => true | _ => false end.

Definition is_udp_connect (e : effect) : bool :=
  match e with UdpCall name => String.eqb name "connect" | _ => false end.

Definition is_emit (e : effect) : bool :=
  match e with Emit _ => true | _ => false end.

Definition is_udp_effect (e : effect) : bool :=
  match e with UdpCall _ | InUdp _ => true | _ => false end.

(** The number of [connect_to_server()] calls among the effects. *)
Definition connect_attempts (t : list effect) : nat :=
  List.length (filter is_connect_attempt t).

(** The signals the manager re-emits for what the media client did
    (lines 58-59). *)
Fixpoint forwarded (t : list Udp.effect) : list signal :=
  match t with
  | [] => []
  | Udp.Emit g :: tl => forward g :: forwarded tl
  | _ :: tl => forwarded tl
  end.
End Manager.

Arguments Log {DetectedObject} l m.
Arguments Tcp {DetectedObject} c.
Arguments UdpCall {DetectedObject} name.
Arguments InUdp {DetectedObject} e.
Arguments frame_a_received {DetectedObject} q.
Arguments frame_b_received {DetectedObject} q.
Arguments tcp_connection_status_changed {DetectedObject} up why.
Arguments udp_connection_status_changed {DetectedObject} up why.
Arguments timeout {DetectedObject}.
Arguments tcp_connected {DetectedObject}.
Arguments tcp_disconnected {DetectedObject}.
Arguments tcp_connection_error {DetectedObject} error_msg.
Arguments tcp_map_response {DetectedObject} response.
Arguments tcp_cctv_a_response {DetectedObject} response.
Arguments tcp_cctv_b_response {DetectedObject} response.
Arguments ui_start_services {DetectedObject}.
Arguments ui_stop_services {DetectedObject}.
Arguments ui_request_cctv_a {DetectedObject}.
Arguments ui_request_cctv_b {DetectedObject}.
Arguments ui_request_object_detail {DetectedObject} object_id.
Arguments ui_request_map {DetectedObject}.
Arguments is_connect_attempt {DetectedObject} e.
Arguments is_udp_connect {DetectedObject} e.
Arguments is_emit {DetectedObject} e.
Arguments is_udp_effect {DetectedObject} e.

(** The fields as [__init__] sets them for a reconnect interval of five
    seconds and three attempts. *)
Definition fresh : NetworkManager :=
  {| tcp_client := {| connected := false |};
     udp_client := Udp.init;
     reconnect_timer := {| active := false; interval := 0 |};
     reconnect_interval := 5000;
     max_reconnect_attempts := 3;
     reconnect_attempts := 0 |}.

(** A manager whose control channel is up and whose media client has
    been bound and started. *)
Definition streaming_manager : NetworkManager :=
  set_udp_client Udp.running_client
    (set_tcp_client {| connected := true |} fresh).

(** The timer armed, three attempts made of three. *)
Definition at_ceiling : NetworkManager :=
  set_reconnect_attempts 3
    (set_reconnect_timer {| active := true; interval := 5000 |} fresh).


(** The exception of a name that [UdpClient] does not define. *)
Definition no_such_attribute (name : string) : exception :=
  AttributeError "UdpClient" name.

Definition stop_timer (s : NetworkManager) : NetworkManager :=
  set_reconnect_timer (QTimer_stop (reconnect_timer s)) s.

(** The attempts the ceiling still allows. *)
Definition budget (s : NetworkManager) : nat :=
  Z.to_nat (max_reconnect_attempts s - reconnect_attempts s).

(** *** Vocabulary of the further properties *)

(** The control-channel status that lines 96, 102 and 106 announce for a
    lifecycle event; the other events announce none. *)
Definition status_of {DetectedObject : Type} (ev : event DetectedObject)
  : list (bool * reason) :=
  match ev with
  | tcp_connected => [(true, tcp_connected_text)]
  | tcp_disconnected => [(false, tcp_disconnected_text)]
  | tcp_connection_error error_msg => [(false, tcp_error_text error_msg)]
  | _ => []
  end.

(** The control-channel statuses among the effects, oldest first. *)
Fixpoint tcp_statuses {DetectedObject : Type}
    (t : list (effect DetectedObject)) : list (bool * reason) :=
  match t with
  | [] => []
  | Emit (tcp_connection_status_changed up why) :: tl =>
      (up, why) :: tcp_statuses tl
  | _ :: tl => tcp_statuses tl
  end.

Definition is_start_services {DetectedObject : Type}
    (ev : event DetectedObject) : bool :=
  match ev with ui_start_services => true | _ => false end.

Definition is_stop_services {DetectedObject : Type}
    (ev : event DetectedObject) : bool :=
  match ev with ui_stop_services => true | _ => false end.

Definition is_connection_error {DetectedObject : Type}
    (ev : event DetectedObject) : bool :=
  match ev with tcp_connection_error _ => true | _ => false end.

(** The requests of the user interface and the responses of the server,
    as opposed to the timer, the lifecycle events and the shutdown. *)
Definition is_request_or_response {DetectedObject : Type}
    (ev : event DetectedObject) : bool :=
  match ev with
  | tcp_object_detected _ | tcp_map_response _
  | tcp_cctv_a_response _ | tcp_cctv_b_response _
  | ui_start_services | ui_request_cctv_a | ui_request_cctv_b
  | ui_request_object_detail _ | ui_request_map => true
  | _ => false
  end.

(** The attempt count lies between 0 and the maximum (or is 0 when the
    configured maximum is negative). *)
Definition attempts_in_range (s : NetworkManager) : Prop :=
  (0 <= reconnect_attempts s <= Z.max 0 (max_reconnect_attempts s))%Z.

(** The signals about the media channel: its status and its frames. *)
Definition is_media_signal {DetectedObject : Type}
    (e : effect DetectedObject) : bool :=
  match e with
  | Emit (udp_connection_status_changed _ _)
  | Emit (frame_a_received _) | Emit (frame_b_received _) => true
  | _ => false
  end.

(** The timer armed by a first connection error, control channel down. *)
Definition armed : NetworkManager :=
  set_reconnect_timer {| active := true; interval := 5000 |} fresh.

End Net.

(** ** The model of [bytes.split] *)

Module PyProps.

Lemma startswith_app (p l : bytes) :
  startswith p l = true -> exists r, l = p ++ r.
Proof.
  revert l. induction p as [|a p IH]; intros l H.
  - exists l. reflexivity.
  - destruct l as [|b l]; [discriminate|].
    cbn in H. apply andb_true_iff in H. destruct H as [Hab Hp].
    apply Byte.byte_dec_bl in Hab. subst b.
    destruct (IH l Hp) as [r ->]. exists r. reflexivity.
Qed.

Lemma split_scan_skip (sep pre : bytes) :
  forall cur r,
    split_scan sep (List.length pre) cur (pre ++ r) = split_scan sep 0 cur r.
Proof.
  induction pre as [|b pre IH]; intros cur r; [reflexivity|].
  cbn. apply IH.
Qed.

Lemma split_scan_parts (sep : bytes) (skip : nat) (cur l : bytes) :
  exists p tl, split_scan sep skip cur l = p :: tl.
Proof.
  revert skip cur. induction l as [|b l IH]; intros skip cur.
  - cbn. eauto.
  - destruct skip as [|k]; [|cbn; apply IH].
    cbn [split_scan]. destruct (startswith sep (b :: l)); [eauto|apply IH].
Qed.

(** Joining the parts with the separator gives the data back, as in
    Python: [sep.join(data.split(sep)) == data]. *)
Lemma join_split_scan (s0 : byte) (sep' : bytes) (n : nat) :
  forall l cur, (List.length l <= n)%nat ->
    join (s0 :: sep') (split_scan (s0 :: sep') 0 cur l) = rev cur ++ l.
Proof.
  induction n as [|n IH]; intros l cur Hlen.
  - destruct l; [|cbn in Hlen; lia]. cbn. rewrite app_nil_r. reflexivity.
  - destruct l as [|b l]; [cbn; rewrite app_nil_r; reflexivity|].
    cbn [split_scan].
    destruct (startswith (s0 :: sep') (b :: l)) eqn:Hsw.
    + apply startswith_app in Hsw. destruct Hsw as [r Hr].
      cbn in Hr. injection Hr as -> ->.
      replace (List.length (s0 :: sep') - 1)%nat with (List.length sep')
        by (cbn; lia).
      rewrite split_scan_skip.
      destruct (split_scan_parts (s0 :: sep') 0 [] r) as (p & tl & Hp).
      assert (join (s0 :: sep') (p :: tl) = r) as Hj.
      { rewrite <- Hp. rewrite IH; [reflexivity|].
        cbn in Hlen. rewrite length_app in Hlen. lia. }
      rewrite Hp.
      change (join (s0 :: sep') (rev cur :: p :: tl))
        with (rev cur ++ (s0 :: sep') ++ join (s0 :: sep') (p :: tl)).
      rewrite Hj. reflexivity.
    + rewrite IH by (cbn in Hlen; lia).
      cbn [rev]. rewrite <- app_assoc. reflexivity.
Qed.

(** X16.  The split of line 60 loses nothing: whenever it returns, the
    parts joined again with the separator are the datagram, byte for
    byte. *)
Lemma join_split (data sep : bytes) (parts : list bytes) :
  split data sep = Returned parts -> join sep parts = data.
Proof.
  unfold split. destruct sep as [|s0 sep']; [discriminate|].
  intros H. injection H as <-.
  apply join_split_scan with (n := List.length data). lia.
Qed.

Example split_overlapping :
  split [x61; x61; x61] [x61; x61] = Returned [[]; [x61]].
Proof. reflexivity. Qed.

Example split_empty_separator : split [x41] [] = Raised ValueError.
Proof. reflexivity. Qed.

Example decode_ascii : decode_utf8 [x41] = Returned [65%N].
Proof. reflexivity. Qed.

Example decode_euro_sign : decode_utf8 [xe2; x82; xac] = Returned [8364%N].
Proof. reflexivity. Qed.

Example decode_rejects_overlong :
  decode_utf8 [xc0; x80] = Raised UnicodeDecodeError.
Proof. reflexivity. Qed.

Example decode_rejects_surrogate :
  decode_utf8 [xed; xa0; x80] = Raised UnicodeDecodeError.
Proof. reflexivity. Qed.

Example decode_rejects_truncated :
  decode_utf8 [xe2; x82] = Raised UnicodeDecodeError.
Proof. reflexivity. Qed.

End PyProps.

(** ** Properties of the media channel client *)

Module UdpProps.

Import Udp.

Section Datagrams.
Variable UDP_DATA_SEPARATOR : bytes.
Variable imdecode : bytes -> outcome (option ndarray).

Local Abbreviation iteration := (iteration UDP_DATA_SEPARATOR imdecode).
Local Abbreviation receive_one := (receive_one UDP_DATA_SEPARATOR imdecode).
Local Abbreviation _receive_frames :=
  (_receive_frames UDP_DATA_SEPARATOR imdecode).
Local Abbreviation then_loop := (then_loop UDP_DATA_SEPARATOR imdecode).
Local Abbreviation valid_datagram := (valid_datagram UDP_DATA_SEPARATOR).
Local Abbreviation warned_datagram :=
  (warned_datagram UDP_DATA_SEPARATOR imdecode).
Local Abbreviation drop_record := (drop_record UDP_DATA_SEPARATOR imdecode).

Ltac iteration_cases c r :=
  unfold Udp.iteration, Udp.receive_one, try_except, bind, get, lift, split,
    tell, ret, raise, result, state_of, effects;
  cbn;
  destruct (socket c); cbn; [|solve [eauto]];
  destruct r as [?dgram|?exn]; cbn; [|solve [eauto]];
  destruct UDP_DATA_SEPARATOR as [|?s0 ?sep]; cbn; [solve [eauto]|].

Lemma iteration_returns (r : recv_result) (c : UdpClient) :
  exists t, iteration r c = (Returned tt, c, t).
Proof.
  iteration_cases c r; eauto.
  destruct (split_scan (s0 :: sep) 0 [] dgram) as [|p0 [|p1 [|p2 tl]]];
    cbn; eauto.
  destruct (decode_utf8 p0) as [cid|e]; cbn; eauto.
  destruct (imdecode p1) as [[f|]|e]; cbn; eauto.
  destruct (str_eqb cid camera_A); cbn; eauto.
  destruct (str_eqb cid camera_B); cbn; eauto.
Qed.

Lemma iteration_result (r : recv_result) (c : UdpClient) :
  result (iteration r c) = Returned tt /\ state_of (iteration r c) = c.
Proof.
  destruct (iteration_returns r c) as [t ->]. split; reflexivity.
Qed.

Lemma pass_returns (c0 c : UdpClient) (r : recv_result) :
  exists t, pass UDP_DATA_SEPARATOR imdecode c0 r c = (Returned tt, c, t)
            /\ t = effects (iteration r c0).
Proof.
  unfold Udp.pass. destruct (iteration_returns r c0) as [t ->].
  exists t. split; reflexivity.
Qed.

Lemma loop_unfold_recv (r : recv_result) (evs : list thread_event)
    (c : UdpClient) :
  is_running c = true ->
  _receive_frames (Recv r :: evs) c = then_loop (iteration r c) evs.
Proof.
  intros Hrun. unfold Udp.then_loop, Udp._receive_frames.
  rewrite Hrun. cbn [Udp.receive_passes].
  destruct (pass_returns c c r) as (t & Hp & Ht).
  unfold bind. rewrite Hp.
  destruct (iteration_returns r c) as [t' Hi].
  rewrite Hi in Ht |- *. cbv [effects state_of result fst snd] in Ht |- *.
  subst t. rewrite Hrun.
  destruct (Udp.receive_passes UDP_DATA_SEPARATOR imdecode c evs c)
    as [[o c'] t2]; reflexivity.
Qed.

Lemma disconnect_stops (c : UdpClient) :
  exists t, disconnect c = (Returned None_, set_socket None (set_is_running false c), t).
Proof.
  unfold disconnect, bind, modify, get, tell, ret; cbn.
  destruct (socket c) eqn:E; cbn.
  - eexists; reflexivity.
  - eexists. unfold set_socket, set_is_running; cbn. rewrite E. reflexivity.
Qed.

Lemma loop_not_running (evs : list thread_event) (c : UdpClient) :
  is_running c = false -> _receive_frames evs c = (Returned Exited, c, []).
Proof.
  intros H. unfold Udp._receive_frames. rewrite H. reflexivity.
Qed.

Lemma passes_outcome (evs : list thread_event) :
  forall c0 c, exists st c' t,
    Udp.receive_passes UDP_DATA_SEPARATOR imdecode c0 evs c
    = (Returned st, c', t)
    /\ (st = Exited ->
        is_running c' = false /\ (is_running c = true -> In Disconnect evs)).
Proof.
  induction evs as [|ev evs IH]; intros c0 c.
  - exists Blocked, c, []. split; [reflexivity|discriminate].
  - destruct ev as [r|]; cbn [Udp.receive_passes].
    + destruct (pass_returns c0 c r) as (t & Hp & _).
      unfold bind at 1. rewrite Hp.
      destruct (is_running c) eqn:E.
      * destruct (IH c c) as (st & c' & t' & Hl & Hex). rewrite Hl.
        exists st, c', (t ++ t'). split; [reflexivity|].
        intros Hst. destruct (Hex Hst) as [H1 H2].
        split; [exact H1|]. intros _. right. apply H2. exact E.
      * exists Exited, c, (t ++ []). split; [reflexivity|].
        intros _. split; [exact E|discriminate].
    + destruct (disconnect_stops c) as [t Ht].
      unfold bind at 1. rewrite Ht.
      destruct (IH c0 (set_socket None (set_is_running false c)))
        as (st & c' & t' & Hl & Hex). rewrite Hl.
      exists st, c', (t ++ t'). split; [reflexivity|].
      intros Hst. destruct (Hex Hst) as [H1 _].
      split; [exact H1|]. intros _. left. reflexivity.
Qed.

Lemma loop_outcome (evs : list thread_event) :
  forall c, exists st c' t,
    _receive_frames evs c = (Returned st, c', t)
    /\ (st = Exited ->
        is_running c' = false /\ (is_running c = true -> In Disconnect evs)).
Proof.
  intros c. unfold Udp._receive_frames. destruct (is_running c) eqn:E.
  - destruct (passes_outcome evs c c) as (st & c' & t & Hl & Hex).
    exists st, c', t. split; [exact Hl|].
    intros Hst. destruct (Hex Hst) as [H1 H2]. split; [exact H1|].
    intros _. apply H2. exact E.
  - exists Exited, c, []. split; [reflexivity|].
    intros _. split; [exact E|discriminate].
Qed.

Lemma receive_one_keeps_state (r : recv_result) (c : UdpClient) :
  state_of (receive_one r c) = c.
Proof.
  pose proof (iteration_returns r c) as [t Ht].
  unfold Udp.iteration, try_except in Ht.
  destruct (Udp.receive_one UDP_DATA_SEPARATOR imdecode r c) as [[[a|e] c'] t'];
    cbn in *; congruence.
Qed.

(** A datagram of camera A whose payload decodes is emitted whatever else
    the client's state is: nothing but the socket is consulted. *)
Lemma camera_a_frame_emitted (data camera_id image_data : bytes)
    (frame : ndarray) (c : UdpClient) (sk : Socket) :
  socket c = Some sk ->
  split data UDP_DATA_SEPARATOR = Returned [camera_id; image_data] ->
  decode_utf8 camera_id = Returned camera_A ->
  imdecode image_data = Returned (Some frame) ->
  iteration (recv_returns data) c
  = (Returned tt, c,
     [Emit (frame_a_received (to_QImage (cvtColor_BGR2RGB frame)))]).
Proof.
  intros Hsk Hsplit Hid Himg.
  unfold Udp.iteration, Udp.receive_one, try_except, bind, get, lift.
  cbn. rewrite Hsk, Hsplit. cbn. rewrite Hid. cbn. rewrite Himg. reflexivity.
Qed.

(** C5 (as amended).  A received datagram that does not split into
    exactly a camera id and a payload, or whose camera id is not 'A' or
    'B', makes the loop body return normally with the client unchanged
    and no frame signal emitted, and the loop goes on with the events
    that follow.  What it leaves in the log is exactly this: nothing when
    the number of parts is not 2 or the payload is no image; one error
    record when the separator is empty, the camera id is no UTF-8 or the
    decoder raises; one warning record when the datagram has two parts,
    its camera id decodes as UTF-8 and its payload decodes to an image. *)
Theorem invalid_datagram_dropped (data : bytes) (c : UdpClient)
    (evs : list thread_event) :
  valid_datagram data = false ->
  is_running c = true ->
  let r := iteration (recv_returns data) c in
  result r = Returned tt
  /\ state_of r = c
  /\ existsb is_emit (effects r) = false
  /\ existsb (is_log_at WARNING) (effects r)
     = match socket c with Some _ => warned_datagram data | None => false end
  /\ effects r
     = match socket c with
       | Some _ => drop_record data
       | None =>
           [Log ERROR (frame_receive_error (AttributeError "NoneType" "recvfrom"))]
       end
  /\ _receive_frames (Recv (recv_returns data) :: evs) c = then_loop r evs.
Proof.
  intros Hinv Hrun r.
  destruct (iteration_result (recv_returns data) c) as [Hres Hst].
  split; [exact Hres|]. split; [exact Hst|].
  assert (effects r
          = match socket c with
            | Some _ => drop_record data
            | None =>
                [Log ERROR
                   (frame_receive_error (AttributeError "NoneType" "recvfrom"))]
            end) as Heff.
  { subst r. revert Hinv.
    unfold Udp.valid_datagram, Udp.drop_record, split.
    unfold Udp.iteration, Udp.receive_one, try_except, bind, get, lift, split,
      tell, ret, raise, effects.
    cbn. destruct (socket c); cbn; [|reflexivity].
    destruct UDP_DATA_SEPARATOR as [|s0 sep]; cbn; [reflexivity|].
    destruct (split_scan (s0 :: sep) 0 [] data) as [|p0 [|p1 [|p2 tl]]];
      cbn; try reflexivity.
    destruct (decode_utf8 p0) as [cid|e]; cbn; [|reflexivity].
    destruct (imdecode p1) as [[f|]|e]; cbn; try reflexivity.
    intros H. apply orb_false_iff in H. destruct H as [-> ->]. reflexivity. }
  split; [|split; [|split; [exact Heff|apply loop_unfold_recv; exact Hrun]]];
    rewrite Heff; revert Hinv;
    unfold Udp.valid_datagram, Udp.warned_datagram, Udp.drop_record, split;
    (destruct (socket c); [|reflexivity]);
    (destruct UDP_DATA_SEPARATOR as [|s0 sep]; [reflexivity|]);
    (destruct (split_scan (s0 :: sep) 0 [] data) as [|p0 [|p1 [|p2 tl]]];
       try reflexivity);
    (destruct (decode_utf8 p0) as [cid|e]; [|reflexivity]);
    destruct (imdecode p1) as [[f|]|e]; reflexivity.
Qed.

(** C10.  The receive loop is never ended by an exception: it returns
    only with the loop test failed, which, for a client that was
    running, needs a [disconnect()] among the events; every pass through
    the body returns normally, an exception raised in the [try] being
    answered by one error log record, and the loop then takes the next
    event. *)
Theorem receive_loop_ends_only_by_disconnect (evs : list thread_event)
    (c : UdpClient) (r0 : recv_result) :
  let r := _receive_frames evs c in
  is_raised (result r) = false
  /\ (result r = Returned Exited ->
      is_running (state_of r) = false
      /\ (is_running c = true -> In Disconnect evs))
  /\ result (iteration r0 c) = Returned tt
  /\ (forall e, result (receive_one r0 c) = Raised e ->
      iteration r0 c
      = (Returned tt, c,
         effects (receive_one r0 c) ++ [Log ERROR (frame_receive_error e)]))
  /\ (is_running c = true ->
      _receive_frames (Recv r0 :: evs) c = then_loop (iteration r0 c) evs).
Proof.
  intros r. subst r.
  destruct (loop_outcome evs c) as (st & c' & t & Hl & Hex).
  split; [rewrite Hl; reflexivity|].
  split.
  { rewrite Hl. cbv [result state_of fst snd].
    intros H. injection H as ->. apply Hex. reflexivity. }
  split; [apply iteration_result|].
  split; [|apply loop_unfold_recv].
  intros e He.
  pose proof (receive_one_keeps_state r0 c) as Hst.
  unfold Udp.iteration, try_except.
  destruct (Udp.receive_one UDP_DATA_SEPARATOR imdecode r0 c) as [[o c1] t1].
  cbv [result state_of effects fst snd] in He, Hst |- *.
  rewrite He, Hst. reflexivity.
Qed.
End Datagrams.

(** *** Concrete inputs *)

Example connect_reaches_running_client :
  state_of (connect bind_succeeds init) = running_client.
Proof. reflexivity. Qed.

Example split_twice :
  split [x41; x3a; x42; x3a; x43] colon = Returned [[x41]; [x42]; [x43]].
Proof. reflexivity. Qed.

Example valid_frame_is_emitted :
  effects (iteration colon one_pixel (recv_returns [x41; x3a; xff]) running_client)
  = [Emit (frame_a_received
             {| q_data := [x00; x00; x00]; q_width := 1; q_height := 1;
                q_bytes_per_line := 3; q_format := Format_RGB888 |})].
Proof. reflexivity. Qed.

(** C5, as stated, fails: the datagram "A" holds no separator, so it is
    not of the form id, separator, payload; it is dropped with no log
    record at all, hence none at warning level. *)
Lemma unsplit_datagram_dropped_silently :
  valid_datagram colon [x41] = false
  /\ effects (iteration colon no_image (recv_returns [x41]) running_client) = []
  /\ existsb (is_log_at WARNING)
       (effects (iteration colon no_image (recv_returns [x41]) running_client))
     = false.
Proof. repeat split. Qed.

Lemma invalid_datagram_dropped_witness :
  valid_datagram colon camera_c_datagram = false
  /\ is_running running_client = true
  /\ result (iteration colon one_pixel (recv_returns camera_c_datagram)
               running_client) = Returned tt
  /\ state_of (iteration colon one_pixel (recv_returns camera_c_datagram)
                 running_client) = running_client
  /\ existsb is_emit
       (effects (iteration colon one_pixel (recv_returns camera_c_datagram)
                   running_client)) = false
  /\ existsb (is_log_at WARNING)
       (effects (iteration colon one_pixel (recv_returns camera_c_datagram)
                   running_client)) = true
  /\ effects (iteration colon one_pixel (recv_returns camera_c_datagram)
                running_client)
     = [Log WARNING (unknown_camera_id [67%N])]
  /\ _receive_frames colon one_pixel
       [Recv (recv_returns camera_c_datagram); Recv (recv_returns camera_a_datagram)]
       running_client
     = then_loop colon one_pixel
         (iteration colon one_pixel (recv_returns camera_c_datagram) running_client)
         [Recv (recv_returns camera_a_datagram)].
Proof.
  split; [reflexivity|]. split; [reflexivity|].
  exact (invalid_datagram_dropped colon one_pixel camera_c_datagram running_client
           [Recv (recv_returns camera_a_datagram)] eq_refl eq_refl).
Defined.

Lemma receive_loop_ends_only_by_disconnect_witness :
  result (_receive_frames colon one_pixel last_events running_client)
  = Returned Exited
  /\ is_running (state_of (_receive_frames colon one_pixel last_events
                             running_client)) = false
  /\ In Disconnect last_events
  /\ iteration colon one_pixel (recv_raises OSError) running_client
     = (Returned tt, running_client, [Log ERROR (frame_receive_error OSError)])
  /\ _receive_frames colon one_pixel (Recv (recv_raises OSError) :: last_events)
       running_client
     = then_loop colon one_pixel
         (iteration colon one_pixel (recv_raises OSError) running_client)
         last_events.
Proof.
  destruct (receive_loop_ends_only_by_disconnect colon one_pixel last_events
              running_client (recv_raises OSError))
    as (_ & Hexit & _ & Hcatch & Hnext).
  split; [reflexivity|].
  split; [apply Hexit; reflexivity|].
  split; [apply Hexit; reflexivity|].
  split; [exact (Hcatch OSError eq_refl)|].
  apply Hnext. reflexivity.
Defined.

End UdpProps.

(** ** Properties of the manager *)

Module NetProps.

Import Udp Net.

Section Supervisor.
Variable DetectedObject : Type.
Variable os : os_connect.

Local Abbreviation effect := (Net.effect DetectedObject).
Local Abbreviation _attempt_reconnect := (Net._attempt_reconnect DetectedObject os).
Local Abbreviation _on_tcp_connected := (Net._on_tcp_connected DetectedObject).
Local Abbreviation _on_tcp_connection_error :=
  (Net._on_tcp_connection_error DetectedObject).
Local Abbreviation start_services := (Net.start_services DetectedObject).
Local Abbreviation stop_services := (Net.stop_services DetectedObject os).
Local Abbreviation _handle_cctv_response :=
  (Net._handle_cctv_response DetectedObject os).
Local Abbreviation request_cctv := (Net.request_cctv DetectedObject os).
Local Abbreviation request_map := (Net.request_map DetectedObject os).
Local Abbreviation udp_call := (Net.udp_call DetectedObject os).
Local Abbreviation handle := (@Net.handle DetectedObject os).
Local Abbreviation run := (@Net.run DetectedObject os).

(** *** The methods, one equation each *)

Lemma udp_call_undefined (name : string) (s : NetworkManager) :
  assoc name attributes = None ->
  udp_call name s = (Raised (no_such_attribute name), s, []).
Proof.
  intros H. unfold Net.udp_call, bind, lift, getattr. rewrite H. reflexivity.
Qed.

Lemma fire_at_ceiling (s : NetworkManager) :
  (reconnect_attempts s >= max_reconnect_attempts s)%Z ->
  _attempt_reconnect s
  = (Returned tt, stop_timer s, [Log WARNING max_reconnect_exceeded]).
Proof.
  intros H. unfold Net._attempt_reconnect, bind at 1, get.
  destruct (Z.geb_spec (reconnect_attempts s) (max_reconnect_attempts s)); [|lia].
  reflexivity.
Qed.

Lemma fire_below_ceiling (s : NetworkManager) :
  (reconnect_attempts s < max_reconnect_attempts s)%Z ->
  _attempt_reconnect s
  = (Raised (no_such_attribute "is_connected"),
     set_reconnect_attempts (reconnect_attempts s + 1) s,
     Log INFO (reconnecting (reconnect_attempts s + 1) (max_reconnect_attempts s))
       :: (if connected (tcp_client s) then [] else [Tcp connect_to_server])).
Proof.
  intros H. unfold Net._attempt_reconnect, bind at 1, get.
  destruct (Z.geb_spec (reconnect_attempts s) (max_reconnect_attempts s)); [lia|].
  destruct s as [[up] u t i m a]. destruct up; reflexivity.
Qed.

Lemma timeout_when_stopped (s : NetworkManager) :
  active (reconnect_timer s) = false ->
  handle timeout s = (Returned tt, s, []).
Proof.
  intros H. unfold Net.handle, bind, get. rewrite H. reflexivity.
Qed.

Lemma timeout_when_armed (s : NetworkManager) :
  active (reconnect_timer s) = true ->
  handle timeout s = _attempt_reconnect s.
Proof.
  intros H. unfold Net.handle, bind, get. rewrite H.
  destruct (Net._attempt_reconnect DetectedObject os s) as [[o s'] t].
  reflexivity.
Qed.

Lemma run_cons (ev : event DetectedObject)
    (evs : list (event DetectedObject)) (s : NetworkManager) :
  run (ev :: evs) s
  = (fst (run evs (state_of (handle ev s))),
     effects (handle ev s) ++ snd (run evs (state_of (handle ev s)))).
Proof. reflexivity. Qed.

Lemma fires_when_stopped (n : nat) (s : NetworkManager) :
  active (reconnect_timer s) = false ->
  run (repeat timeout n) s = (s, []).
Proof.
  intros H. induction n as [|n IH]; [reflexivity|].
  cbn [repeat]. rewrite run_cons, timeout_when_stopped by assumption.
  unfold state_of, effects; cbn [fst snd]. rewrite IH. reflexivity.
Qed.

Lemma connect_attempts_app (t1 t2 : list effect) :
  connect_attempts (t1 ++ t2) = (connect_attempts t1 + connect_attempts t2)%nat.
Proof.
  unfold connect_attempts. rewrite filter_app, length_app. reflexivity.
Qed.



Lemma on_connected_eq (s : NetworkManager) :
  _on_tcp_connected s
  = (Returned tt, set_reconnect_attempts 0 (stop_timer s),
     [Emit (tcp_connection_status_changed true tcp_connected_text)]).
Proof. reflexivity. Qed.

Lemma on_connection_error_eq (error_msg : string) (s : NetworkManager) :
  _on_tcp_connection_error error_msg s
  = if fits_c_int (reconnect_interval s)
    then (Returned tt,
          set_reconnect_timer (armed_timer (reconnect_interval s))
            (set_reconnect_attempts 0 s),
          [Emit (tcp_connection_status_changed false (tcp_error_text error_msg))])
    else (Raised OverflowError, set_reconnect_attempts 0 s,
          [Emit (tcp_connection_status_changed false (tcp_error_text error_msg))]).
Proof.
  unfold Net._on_tcp_connection_error, Net.timer_start, QTimer_start,
    bind, get, modify, tell, lift.
  cbn. destruct (fits_c_int (reconnect_interval s)); reflexivity.
Qed.

Lemma handle_connection_error_eq (error_msg : string) (s : NetworkManager) :
  handle (tcp_connection_error error_msg) s
  = if fits_c_int (reconnect_interval s)
    then (Returned tt,
          set_reconnect_timer (armed_timer (reconnect_interval s))
            (set_reconnect_attempts 0
               (set_tcp_client {| connected := false |} s)),
          [Emit (tcp_connection_status_changed false (tcp_error_text error_msg))])
    else (Raised OverflowError,
          set_reconnect_attempts 0 (set_tcp_client {| connected := false |} s),
          [Emit (tcp_connection_status_changed false (tcp_error_text error_msg))]).
Proof.
  cbn [Net.handle]. unfold bind at 1, modify.
  rewrite on_connection_error_eq.
  cbn [reconnect_interval set_tcp_client].
  destruct (fits_c_int (reconnect_interval s)); reflexivity.
Qed.

Lemma handle_object_detected_eq (objects : list DetectedObject) :
  forall s, _handle_object_detected objects s
            = (Returned tt, s, map (fun o => Emit (object_detected o)) objects).
Proof.
  unfold _handle_object_detected.
  induction objects as [|o tl IH]; intros s; [reflexivity|].
  cbn [for_each map]. unfold bind at 1, tell. rewrite IH. reflexivity.
Qed.

Lemma cctv_response_eq (c : camera) (response : string)
    (s : NetworkManager) :
  _handle_cctv_response c response s
  = if String.eqb response "OK"
    then (Raised (no_such_attribute "is_connected"), s,
          [Log INFO (cctv_approved c)])
    else (Returned tt, s, [Log ERROR (cctv_denied c response)]).
Proof.
  unfold Net._handle_cctv_response.
  destruct (String.eqb response "OK"); reflexivity.
Qed.

Lemma request_cctv_eq (c : camera) (s : NetworkManager) :
  request_cctv c s = (Raised (no_such_attribute "is_connected"), s, []).
Proof. reflexivity. Qed.

Lemma request_map_eq (s : NetworkManager) :
  request_map s
  = (Raised (no_such_attribute "stop_streaming"), s, [Tcp tcp_request_map]).
Proof. reflexivity. Qed.

Lemma stop_services_eq (s : NetworkManager) :
  stop_services s
  = (Returned tt,
     set_udp_client (state_of (disconnect (udp_client s)))
       (set_tcp_client {| connected := false |} s),
     Log INFO services_stopping :: Tcp disconnect_from_server
       :: UdpCall "disconnect" :: map InUdp (effects (disconnect (udp_client s)))).
Proof.
  destruct s as [tc [[sk|] run th] t i m a]; reflexivity.
Qed.

(** Only a control-channel connection error arms the timer. *)
Lemma stopped_timer_stays_stopped (ev : event DetectedObject)
    (s : NetworkManager) :
  active (reconnect_timer s) = false ->
  (forall error_msg, ev <> tcp_connection_error error_msg) ->
  active (reconnect_timer (state_of (handle ev s))) = false.
Proof.
  intros H Hev. destruct ev; [idtac | cbn [Net.handle] ..].
  - rewrite timeout_when_stopped by assumption. exact H.
  - reflexivity.
  - exact H.
  - exfalso. eapply Hev. reflexivity.
  - rewrite handle_object_detected_eq. exact H.
  - unfold _handle_map_response.
    destruct (String.prefix "OK" response); exact H.
  - unfold _handle_cctv_a_response. rewrite cctv_response_eq.
    destruct (String.eqb response "OK"); exact H.
  - unfold _handle_cctv_b_response. rewrite cctv_response_eq.
    destruct (String.eqb response "OK"); exact H.
  - exact H.
  - rewrite stop_services_eq. exact H.
  - unfold request_cctv_a. rewrite request_cctv_eq. exact H.
  - unfold request_cctv_b. rewrite request_cctv_eq. exact H.
  - exact H.
  - rewrite request_map_eq. exact H.
Qed.

Lemma no_handler_connects_media (ev : event DetectedObject)
    (s : NetworkManager) :
  existsb is_udp_connect (effects (handle ev s)) = false.
Proof.
  destruct ev;
    [idtac | idtac | idtac | rewrite handle_connection_error_eq
     | cbn [Net.handle] ..]; try reflexivity.
  - destruct (active (reconnect_timer s)) eqn:Hact.
    + rewrite timeout_when_armed by assumption.
      destruct (Z_lt_ge_dec (reconnect_attempts s) (max_reconnect_attempts s)).
      * rewrite fire_below_ceiling by assumption.
        destruct (connected (tcp_client s)); reflexivity.
      * rewrite fire_at_ceiling by assumption. reflexivity.
    + rewrite timeout_when_stopped by assumption. reflexivity.
  - destruct (fits_c_int (reconnect_interval s)); reflexivity.
  - rewrite handle_object_detected_eq. unfold effects; cbn [snd].
    induction objects as [|o tl IH]; [reflexivity|exact IH].
  - unfold _handle_map_response.
    destruct (String.prefix "OK" response); reflexivity.
  - unfold _handle_cctv_a_response. rewrite cctv_response_eq.
    destruct (String.eqb response "OK"); reflexivity.
  - unfold _handle_cctv_b_response. rewrite cctv_response_eq.
    destruct (String.eqb response "OK"); reflexivity.
  - rewrite stop_services_eq. unfold effects; cbn [snd existsb is_udp_connect].
    cbn [String.eqb Ascii.eqb Bool.eqb orb].
    induction (snd (disconnect (udp_client s))) as [|e tl IH];
      [reflexivity|exact IH].
Qed.

(** *** The reconnect state machine *)


(** C3 (as amended).  A timer fire that finds the attempt count at or
    above the maximum returns with the timer stopped, nothing else
    changed, and one warning log record as its only effect: no signal is
    emitted.  The stop is not permanent: the timer stays stopped under
    every event but a control-channel connection error, and a connection
    error arms it again, with no [start_services()] needed, whenever the
    configured interval fits a C int; otherwise it stays stopped. *)
Theorem exhausted_fire_stops_and_logs (s : NetworkManager)
    (ev : event DetectedObject) (error_msg : string) :
  (reconnect_attempts s >= max_reconnect_attempts s)%Z ->
  _attempt_reconnect s
  = (Returned tt, stop_timer s, [Log WARNING max_reconnect_exceeded])
  /\ existsb is_emit (effects (_attempt_reconnect s)) = false
  /\ ((forall error_msg, ev <> tcp_connection_error error_msg) ->
      active (reconnect_timer (state_of (handle ev (stop_timer s)))) = false)
  /\ active (reconnect_timer
       (state_of (handle (tcp_connection_error error_msg) (stop_timer s))))
     = fits_c_int (reconnect_interval s).
Proof.
  intros H. rewrite fire_at_ceiling by assumption.
  split; [reflexivity|]. split; [reflexivity|].
  split.
  - intros Hev. apply stopped_timer_stays_stopped; [reflexivity|exact Hev].
  - rewrite handle_connection_error_eq.
    change (reconnect_interval (stop_timer s)) with (reconnect_interval s).
    destruct (fits_c_int (reconnect_interval s)); reflexivity.
Qed.

(** C4.  A reconnect timer fire makes no call on the media channel client
    and leaves its state as it was: the [is_connected] that line 91 reads
    from it is not an attribute of [UdpClient], so the fire ends there.
    No event at all makes the manager call [connect()] on the media
    channel, so no event other than a streaming request does. *)
Theorem timer_fire_leaves_media_channel (s : NetworkManager)
    (ev : event DetectedObject) :
  udp_client (state_of (handle timeout s)) = udp_client s
  /\ existsb is_udp_effect (effects (handle timeout s)) = false
  /\ existsb is_udp_connect (effects (handle ev s)) = false.
Proof.
  split; [|split; [|apply no_handler_connects_media]].
  - destruct (active (reconnect_timer s)) eqn:Hact.
    + rewrite timeout_when_armed by assumption.
      destruct (Z_lt_ge_dec (reconnect_attempts s) (max_reconnect_attempts s)).
      * rewrite fire_below_ceiling by assumption. reflexivity.
      * rewrite fire_at_ceiling by assumption. reflexivity.
    + rewrite timeout_when_stopped by assumption. reflexivity.
  - destruct (active (reconnect_timer s)) eqn:Hact.
    + rewrite timeout_when_armed by assumption.
      destruct (Z_lt_ge_dec (reconnect_attempts s) (max_reconnect_attempts s)).
      * rewrite fire_below_ceiling by assumption.
        destruct (connected (tcp_client s)); reflexivity.
      * rewrite fire_at_ceiling by assumption. reflexivity.
    + rewrite timeout_when_stopped by assumption. reflexivity.
Qed.

(** C9.  An object-detection batch of n objects makes the manager emit
    exactly n [object_detected] signals, one per object, in the order of
    the batch, and nothing else. *)
Theorem object_batch_expanded (objects : list DetectedObject)
    (s : NetworkManager) :
  _handle_object_detected objects s
  = (Returned tt, s, map (fun o => Emit (object_detected o)) objects)
  /\ List.length (effects (_handle_object_detected objects s))
     = List.length objects.
Proof.
  rewrite handle_object_detected_eq. split; [reflexivity|].
  unfold effects; cbn [snd]. apply length_map.
Qed.

(** *** Where the code departs from the claims *)

(** C2.  [stop_services()] disconnects both channels but does not touch
    the reconnect timer: a timer armed by a connection error is still
    armed afterwards, and its next fire calls [connect_to_server()]
    again. *)
Theorem stop_services_leaves_timer_armed (s : NetworkManager) :
  let stopped := state_of (stop_services s) in
  result (stop_services s) = Returned tt
  /\ In (Tcp disconnect_from_server) (effects (stop_services s))
  /\ is_running (udp_client stopped) = false
  /\ socket (udp_client stopped) = None
  /\ reconnect_timer stopped = reconnect_timer s
  /\ (let armed := state_of (handle (tcp_connection_error "refused") fresh) in
      let r := run [ui_stop_services; timeout] armed in
      active (reconnect_timer armed) = true
      /\ active (reconnect_timer (fst r)) = true
      /\ snd r = [Log INFO services_stopping; Tcp disconnect_from_server;
                  UdpCall "disconnect"; InUdp (Udp.Log INFO udp_disconnected);
                  Log INFO (reconnecting 1 3); Tcp connect_to_server]).
Proof.
  intros stopped. subst stopped. rewrite stop_services_eq.
  destruct (UdpProps.disconnect_stops (udp_client s)) as [t ->].
  split; [reflexivity|].
  split; [right; left; reflexivity|].
  repeat split.
Qed.

(** C6.  On the approval "OK" the handler logs and then raises
    [AttributeError]: [UdpClient] has no [is_connected], so the media
    channel is neither connected nor put into streaming mode and the
    manager is left as it was.  On any other response it only logs. *)
Theorem cctv_approval_raises (c : camera) (response : string) (s : NetworkManager) :
  _handle_cctv_response c "OK" s
  = (Raised (no_such_attribute "is_connected"), s, [Log INFO (cctv_approved c)])
  /\ _handle_cctv_response c response s
     = (if String.eqb response "OK"
        then (Raised (no_such_attribute "is_connected"), s,
              [Log INFO (cctv_approved c)])
        else (Returned tt, s, [Log ERROR (cctv_denied c response)]))
  /\ getattr "start_streaming" = Raised (no_such_attribute "start_streaming").
Proof.
  split; [apply (cctv_response_eq c "OK")|].
  split; [apply cctv_response_eq|reflexivity].
Qed.

(** C7.  [request_map()] sends the map request and then raises
    [AttributeError]: [UdpClient] has no [stop_streaming], and its receive
    loop has no streaming gate.  After an approval and a map request on a
    manager whose media client is running, that client is unchanged and
    the next datagram of camera A is still decoded, emitted and forwarded
    as [frame_a_received]. *)
Theorem map_request_leaves_frames_flowing (s : NetworkManager) :
  request_map s
  = (Raised (no_such_attribute "stop_streaming"), s, [Tcp tcp_request_map])
  /\ (let after := fst (run [tcp_cctv_a_response "OK"; ui_request_map]
                          streaming_manager) in
      udp_client after = running_client
      /\ forwarded DetectedObject
           (effects (iteration colon one_pixel
                       (recv_returns [x41; x3a; xff]) (udp_client after)))
         = [frame_a_received
              {| q_data := [x00; x00; x00]; q_width := 1; q_height := 1;
                 q_bytes_per_line := 3; q_format := Format_RGB888 |}]).
Proof. repeat split. Qed.

(** C8.  The media client emits no connection status event: its only
    signals are the two frame signals, and [connect()] (whatever the
    operating system answers), [disconnect()] and a receive error emit
    nothing, they only log.  The [connection_status_changed] that the
    manager connects to (line 62) is not an attribute of [UdpClient], so
    [_connect_signals] and with it [__init__] raise [AttributeError]. *)
Theorem media_client_emits_no_status (c : UdpClient)
    (e : exception) (sep : bytes)
    (imdecode : bytes -> outcome (option ndarray)) (interval maximum : Z) :
  existsb Udp.is_emit (effects (connect os c)) = false
  /\ effects (connect bind_succeeds c) = [Start; Udp.Log INFO udp_connected]
  /\ existsb Udp.is_emit (effects (disconnect c)) = false
  /\ existsb Udp.is_emit (effects (iteration sep imdecode (recv_raises e) c))
     = false
  /\ getattr "connection_status_changed"
     = Raised (no_such_attribute "connection_status_changed")
  /\ Net.init interval maximum
     = Raised (no_such_attribute "connection_status_changed").
Proof.
  split; [destruct os; reflexivity|]. split; [reflexivity|].
  split; [destruct (socket c) eqn:E; unfold disconnect, bind, modify, get, effects;
          cbn; rewrite E; reflexivity|].
  split; [|split; reflexivity].
  unfold iteration, receive_one, try_except, bind, get, effects. cbn.
  destruct (socket c); reflexivity.
Qed.

End Supervisor.

(** *** Concrete inputs *)


(** C3, as stated, fails: the fire at the ceiling emits no signal, its
    only effect is the warning log record; and the stop is not permanent,
    since a connection error that follows arms the timer again with no
    [start_services()] in between. *)
Lemma exhausted_fire_emits_nothing :
  effects (Net.handle (DetectedObject := unit) bind_succeeds timeout at_ceiling)
  = [Log WARNING max_reconnect_exceeded]
  /\ existsb is_emit
       (effects (Net.handle (DetectedObject := unit) bind_succeeds timeout
                   at_ceiling))
     = false
  /\ active (reconnect_timer
       (state_of (Net.handle (DetectedObject := unit) bind_succeeds timeout
                    at_ceiling))) = false
  /\ active (reconnect_timer
       (fst (Net.run (DetectedObject := unit) bind_succeeds
               [timeout; tcp_connection_error "refused"%string] at_ceiling)))
     = true.
Proof. repeat split. Qed.

Lemma exhausted_fire_stops_and_logs_witness :
  (reconnect_attempts at_ceiling >= max_reconnect_attempts at_ceiling)%Z
  /\ Net._attempt_reconnect unit bind_succeeds at_ceiling
     = (Returned tt, stop_timer at_ceiling, [Log WARNING max_reconnect_exceeded])
  /\ active (reconnect_timer
       (state_of (Net.handle (DetectedObject := unit) bind_succeeds
                    ui_start_services (stop_timer at_ceiling)))) = false
  /\ active (reconnect_timer
       (state_of (Net.handle (DetectedObject := unit) bind_succeeds
                    (tcp_connection_error "refused"%string)
                    (stop_timer at_ceiling)))) = true.
Proof.
  assert (reconnect_attempts at_ceiling >= max_reconnect_attempts at_ceiling)%Z
    as H by (cbn; lia).
  destruct (exhausted_fire_stops_and_logs (DetectedObject := unit) bind_succeeds
              at_ceiling ui_start_services "refused"%string H)
    as (Heq & _ & Hstay & Harm).
  split; [exact H|]. split; [exact Heq|].
  split; [|exact Harm].
  apply Hstay. intros error_msg. discriminate.
Defined.

End NetProps.

(** ** More on the framing of datagrams *)

Module PyExtra.

Lemma startswith_self (p r : bytes) : startswith p (p ++ r) = true.
Proof.
  induction p as [|a p IH]; [reflexivity|].
  cbn. rewrite IH. destruct (Byte.byte_eq_dec a a) as [_|N]; [|congruence].
  destruct (Byte.eqb a a) eqn:E; [reflexivity|].
  apply Byte.eqb_false in E. congruence.
Qed.

Lemma startswith_app_long (p : bytes) :
  forall l r, (List.length p <= List.length l)%nat ->
    startswith p (l ++ r) = startswith p l.
Proof.
  induction p as [|a p IH]; intros l r H; [reflexivity|].
  destruct l as [|b l]; [cbn in H; lia|].
  cbn in *. rewrite IH by lia. reflexivity.
Qed.

Lemma split_scan_no_match (sep : bytes) :
  forall l cur, contains sep l = false ->
    split_scan sep 0 cur l = [rev cur ++ l].
Proof.
  induction l as [|b l IH]; intros cur H.
  - cbn. rewrite app_nil_r. reflexivity.
  - cbn [contains] in H. apply orb_false_iff in H. destruct H as [Hs Hc].
    cbn [split_scan]. rewrite Hs, IH by assumption.
    cbn [rev]. rewrite <- app_assoc. reflexivity.
Qed.

(** The first cut falls where the separator first occurs. *)
Lemma split_scan_first (s0 : byte) (sep' : bytes) :
  forall x cur y,
    contains (s0 :: sep') (x ++ removelast (s0 :: sep')) = false ->
    split_scan (s0 :: sep') 0 cur (x ++ (s0 :: sep') ++ y)
    = (rev cur ++ x) :: split_scan (s0 :: sep') 0 [] y.
Proof.
  induction x as [|b x IH]; intros cur y H.
  - change ([] ++ (s0 :: sep') ++ y) with (s0 :: (sep' ++ y)).
    cbn [split_scan].
    change (s0 :: sep' ++ y) with ((s0 :: sep') ++ y).
    rewrite startswith_self.
    replace (List.length (s0 :: sep') - 1)%nat with (List.length sep')
      by (cbn; lia).
    rewrite PyProps.split_scan_skip, app_nil_r. reflexivity.
  - change ((b :: x) ++ removelast (s0 :: sep'))
      with (b :: (x ++ removelast (s0 :: sep'))) in H.
    cbn [contains] in H. apply orb_false_iff in H. destruct H as [Hs Hc].
    change ((b :: x) ++ (s0 :: sep') ++ y) with (b :: (x ++ (s0 :: sep') ++ y)).
    cbn [split_scan].
    assert (s0 :: sep' = removelast (s0 :: sep') ++ [last (s0 :: sep') s0])
      as Hsep by (apply app_removelast_last; discriminate).
    assert (startswith (s0 :: sep') (b :: x ++ (s0 :: sep') ++ y) = false) as Hn.
    { set (rl := removelast (s0 :: sep')) in *.
      set (la := last (s0 :: sep') s0) in *.
      assert (x ++ (s0 :: sep') ++ y = (x ++ rl) ++ [la] ++ y) as E.
      { rewrite <- app_assoc. f_equal. rewrite app_assoc. f_equal. exact Hsep. }
      rewrite E.
      change (b :: (x ++ rl) ++ [la] ++ y) with ((b :: x ++ rl) ++ [la] ++ y).
      rewrite startswith_app_long; [exact Hs|].
      apply (f_equal (@List.length byte)) in Hsep.
      rewrite length_app in Hsep. cbn in Hsep. cbn. rewrite length_app. lia. }
    rewrite Hn. rewrite IH by assumption.
    cbn [rev]. rewrite <- app_assoc. reflexivity.
Qed.

Lemma split_scan_match_two (s0 : byte) (sep' : bytes) :
  forall l cur, contains (s0 :: sep') l = true ->
    exists p q tl, split_scan (s0 :: sep') 0 cur l = p :: q :: tl.
Proof.
  induction l as [|b l IH]; intros cur H; [discriminate|].
  cbn [contains] in H. cbn [split_scan].
  destruct (startswith (s0 :: sep') (b :: l)) eqn:Hs.
  - destruct (PyProps.split_scan_parts (s0 :: sep')
                (List.length (s0 :: sep') - 1) [] l) as (q & tl & ->).
    eauto.
  - apply IH. exact H.
Qed.

Ltac bool_facts :=
  repeat match goal with
    | H : (_ && _)%bool = true |- _ => apply andb_true_iff in H; destruct H
    | H : (_ <=? _)%N = true |- _ => apply N.leb_le in H
    | H : (_ <=? _)%N = false |- _ => apply N.leb_gt in H
    | H : (_ =? _)%N = true |- _ => apply N.eqb_eq in H
    | H : (_ =? _)%N = false |- _ => apply N.eqb_neq in H
    end.

Lemma cons_to_inv (c : N) (r : outcome str) (s : str) :
  cons_to c r = Returned s -> exists s', r = Returned s' /\ s = c :: s'.
Proof.
  destruct r as [s'|e]; cbn; intros H; [|discriminate].
  injection H as <-. eauto.
Qed.

Ltac decode_cases H :=
  cbn [decode_utf8] in H; cbv zeta in H;
  repeat match type of H with
    | context [if ?c then _ else _] => destruct c eqn:?
    | context [match ?t with [] => _ | _ :: _ => _ end] => destruct t
    end;
  try discriminate.

Lemma decode_utf8_nil (l : bytes) : decode_utf8 l = Returned [] -> l = [].
Proof.
  destruct l as [|b0 t0]; [reflexivity|]. intros H. exfalso.
  decode_cases H; apply cons_to_inv in H; destruct H as (s' & _ & H);
    discriminate.
Qed.

(** A string of one ASCII character is the decoding of that one byte
    only: the strict decoder accepts no longer encoding of it. *)
Lemma decode_utf8_single_ascii (l : bytes) (n : N) :
  (n < 128)%N -> decode_utf8 l = Returned [n] ->
  exists b, l = [b] /\ Byte.to_N b = n.
Proof.
  intros Hn H. destruct l as [|b0 t0]; [discriminate|].
  decode_cases H; apply cons_to_inv in H; destruct H as (s' & Hs' & H);
    injection H as Hc <-; unfold between, low6 in *; bool_facts;
    try (exfalso; lia).
  apply decode_utf8_nil in Hs'. subst. eauto.
Qed.

Lemma to_N_inj (a b : byte) : Byte.to_N a = Byte.to_N b -> a = b.
Proof.
  intros H. pose proof (Byte.of_to_N a) as Ha. rewrite H, Byte.of_to_N in Ha.
  congruence.
Qed.

Lemma decode_utf8_camera (l : bytes) (b : byte) :
  (Byte.to_N b < 128)%N ->
  decode_utf8 l = Returned [Byte.to_N b] -> l = [b].
Proof.
  intros Hb H. destruct (decode_utf8_single_ascii l Hb H) as (b' & -> & E).
  apply to_N_inj in E. subst. reflexivity.
Qed.

Lemma join_split_witness :
  join [x3a] [[x41]; [xff; xd8]; []] = [x41; x3a; xff; xd8; x3a].
Proof.
  exact (@PyProps.join_split [x41; x3a; xff; xd8; x3a] [x3a]
           [[x41]; [xff; xd8]; []] eq_refl).
Defined.

End PyExtra.

(** ** More on the media channel client *)

Module UdpExtra.

Import Udp.

(** X1.  [connect()] never raises and never closes a socket the client
    already holds.  It returns [True] exactly when socket creation, bind
    and thread start all succeed, and the client is then running on a
    bound socket with its thread started.  A failed socket creation
    leaves the client as it was, a failed bind leaves it holding the new
    unbound socket, and a failed thread start leaves [is_running] set
    although [False] is returned. *)
Theorem connect_reports_by_value (os : os_connect) (c : UdpClient) :
  result (connect os c)
  = Returned (Bool_ (match os with bind_succeeds => true | _ => false end))
  /\ state_of (connect os c)
     = match os with
       | socket_raises _ => c
       | bind_raises _ => set_socket (Some {| bound := false |}) c
       | start_raises _ => unstarted_client
       | bind_succeeds => running_client
       end
  /\ existsb is_close (effects (connect os c)) = false
  /\ List.length (effects (connect os c))
     = match os with bind_succeeds => 2%nat | _ => 1%nat end.
Proof.
  destruct os; repeat split; destruct c as [sk run th]; reflexivity.
Qed.

(** X2.  [disconnect()] never raises, leaves the client not running and
    without a socket, and keeps the thread handle.  It closes the socket
    exactly when the client held one, so a second [disconnect()] changes
    nothing and closes nothing; and a receive loop that tests the flag
    afterwards returns at once, whatever events are pending. *)
Theorem disconnect_idempotent (c : UdpClient) (sep : bytes)
    (imdecode : bytes -> outcome (option ndarray)) (evs : list thread_event) :
  result (disconnect c) = Returned None_
  /\ state_of (disconnect c)
     = {| socket := None; is_running := false;
          receive_thread := receive_thread c |}
  /\ effects (disconnect c)
     = match socket c with Some _ => [Close] | None => [] end
       ++ [Log INFO udp_disconnected]
  /\ disconnect (state_of (disconnect c))
     = (Returned None_, state_of (disconnect c), [Log INFO udp_disconnected])
  /\ _receive_frames sep imdecode evs (state_of (disconnect c))
     = (Returned Exited, state_of (disconnect c), []).
Proof.
  destruct c as [[sk|] run th]; repeat split;
    apply UdpProps.loop_not_running; reflexivity.
Qed.

Section Loop.
Variable UDP_DATA_SEPARATOR : bytes.
Variable imdecode : bytes -> outcome (option ndarray).

Local Abbreviation iteration := (iteration UDP_DATA_SEPARATOR imdecode).
Local Abbreviation _receive_frames :=
  (_receive_frames UDP_DATA_SEPARATOR imdecode).

Lemma loop_recv_list (rs : list recv_result) (evs : list thread_event)
    (c : UdpClient) :
  is_running c = true ->
  _receive_frames (map Recv rs ++ evs) c
  = (result (_receive_frames evs c), state_of (_receive_frames evs c),
     flat_map (fun r => effects (iteration r c)) rs
       ++ effects (_receive_frames evs c)).
Proof.
  intros Hrun. induction rs as [|r rs IH].
  - cbn [map app flat_map].
    destruct (Udp._receive_frames UDP_DATA_SEPARATOR imdecode evs c)
      as [[o c'] t]. reflexivity.
  - cbn [map app flat_map].
    rewrite UdpProps.loop_unfold_recv by assumption. unfold then_loop.
    destruct (UdpProps.iteration_returns UDP_DATA_SEPARATOR imdecode r c)
      as [t Ht].
    rewrite Ht. cbv [state_of result effects fst snd]. 
    cbv [state_of result effects fst snd] in IH. rewrite IH.
    rewrite app_assoc. reflexivity.
Qed.

(** X3.  A running loop handles the datagrams one by one in the order of
    their arrival and keeps nothing between them: its effects are those
    of the single passes, in order, the client is unchanged, and the loop
    then waits for the next datagram. *)
Theorem datagrams_handled_in_order (rs : list recv_result) (c : UdpClient) :
  is_running c = true ->
  _receive_frames (map Recv rs) c
  = (Returned Blocked, c, flat_map (fun r => effects (iteration r c)) rs).
Proof.
  intros Hrun.
  pose proof (loop_recv_list rs [] c Hrun) as H.
  rewrite app_nil_r in H. rewrite H.
  unfold Udp._receive_frames. rewrite Hrun. cbn [Udp.receive_passes].
  cbv [ret result state_of effects fst snd]. rewrite app_nil_r. reflexivity.
Qed.

(** X4.  A [disconnect()] ends the loop only at the next test of the
    flag: the pass the thread is in is still completed, so what the
    pending [recvfrom] returns after the disconnect is handled like any
    other datagram, and only then has the loop returned; whatever arrives
    later is ignored.  Until that [recvfrom] returns or raises, the
    thread stays in it. *)
Theorem one_pass_after_disconnect (rs : list recv_result) (r : recv_result)
    (evs : list thread_event) (c : UdpClient) :
  is_running c = true ->
  _receive_frames (map Recv rs ++ Disconnect :: Recv r :: evs) c
  = (Returned Exited, state_of (disconnect c),
     flat_map (fun r => effects (iteration r c)) rs
       ++ effects (disconnect c) ++ effects (iteration r c))
  /\ _receive_frames (map Recv rs ++ [Disconnect]) c
     = (Returned Blocked, state_of (disconnect c),
        flat_map (fun r => effects (iteration r c)) rs
          ++ effects (disconnect c)).
Proof.
  intros Hrun. rewrite !loop_recv_list by assumption.
  unfold Udp._receive_frames. rewrite Hrun. cbn [Udp.receive_passes].
  destruct (UdpProps.disconnect_stops c) as [t Ht].
  destruct (UdpProps.pass_returns UDP_DATA_SEPARATOR imdecode c
              (set_socket None (set_is_running false c)) r)
    as (t' & Hp & ->).
  unfold bind. rewrite Ht, Hp.
  cbv [ret result state_of effects fst snd set_socket set_is_running
       is_running].
  rewrite !app_nil_r. split; reflexivity.
Qed.

Lemma str_eqb_true (a b : str) : str_eqb a b = true -> a = b.
Proof.
  unfold str_eqb. destruct (list_eq_dec N.eq_dec a b); [trivial|discriminate].
Qed.

Lemma contains_empty (l : bytes) : contains [] l = true.
Proof. destruct l; reflexivity. Qed.

(** X5.  A frame signal comes only from a datagram that splits into
    exactly the id bytes [b'A'] or [b'B'] and a payload that decodes to an
    image; it goes to the signal of that camera, carries that image, and
    is the only effect of the pass. *)
Theorem frame_only_for_known_camera (r : recv_result) (c : UdpClient)
    (g : signal) :
  In (Emit g) (effects (iteration r c)) ->
  exists data image_data frame a,
    r = recv_returns data
    /\ split data UDP_DATA_SEPARATOR
       = Returned [camera_bytes a; image_data]
    /\ imdecode image_data = Returned (Some frame)
    /\ g = camera_signal a (to_QImage (cvtColor_BGR2RGB frame))
    /\ effects (iteration r c) = [Emit g].
Proof.
  unfold Udp.iteration, Udp.receive_one, try_except, bind, get, lift, split,
    tell, ret, raise, effects.
  cbn. destruct (socket c); cbn; [|intros [H|[]]; discriminate].
  destruct r as [data|e]; cbn; [|intros [H|[]]; discriminate].
  destruct UDP_DATA_SEPARATOR as [|s0 sep]; cbn;
    [intros [H|[]]; discriminate|].
  destruct (split_scan (s0 :: sep) 0 [] data) as [|p0 [|p1 [|p2 tl]]] eqn:Hsplit;
    cbn; try (intros []).
  destruct (decode_utf8 p0) as [cid|e] eqn:Hid; cbn;
    [|intros [H|[]]; discriminate].
  destruct (imdecode p1) as [[f|]|e] eqn:Himg; cbn;
    [| intros [] | intros [H|[]]; discriminate].
  destruct (str_eqb cid camera_A) eqn:HA; cbn.
  - intros [H|[]]. injection H as <-.
    apply str_eqb_true in HA. subst cid.
    apply (@PyExtra.decode_utf8_camera p0 x41) in Hid; [|reflexivity].
    subst p0. exists data, p1, f, true.
    split; [reflexivity|]. split; [rewrite Hsplit; reflexivity|].
    split; [exact Himg|]. split; reflexivity.
  - destruct (str_eqb cid camera_B) eqn:HB; cbn.
    + intros [H|[]]. injection H as <-.
      apply str_eqb_true in HB. subst cid.
      apply (@PyExtra.decode_utf8_camera p0 x42) in Hid; [|reflexivity].
      subst p0. exists data, p1, f, false.
    split; [reflexivity|]. split; [rewrite Hsplit; reflexivity|].
    split; [exact Himg|]. split; reflexivity.
    + intros [H|[]]; discriminate.
Qed.

(** X6.  Round trip of the wire format: the datagram made of the id of a
    known camera, the separator and a payload in which the separator
    does not occur (nor any occurrence of it starts in the id) is taken
    apart again, and when the payload decodes to an image exactly that
    image is emitted on the signal of that camera. *)
Theorem framed_datagram_round_trip (a : bool) (payload : bytes)
    (frame : ndarray) (c : UdpClient) (sk : Socket) :
  socket c = Some sk ->
  contains UDP_DATA_SEPARATOR
    (camera_bytes a ++ removelast UDP_DATA_SEPARATOR) = false ->
  contains UDP_DATA_SEPARATOR payload = false ->
  imdecode payload = Returned (Some frame) ->
  split (camera_bytes a ++ UDP_DATA_SEPARATOR ++ payload) UDP_DATA_SEPARATOR
  = Returned [camera_bytes a; payload]
  /\ iteration (recv_returns (camera_bytes a ++ UDP_DATA_SEPARATOR ++ payload)) c
     = (Returned tt, c,
        [Emit (camera_signal a (to_QImage (cvtColor_BGR2RGB frame)))]).
Proof.
  intros Hsk Hid Hpay Himg.
  destruct UDP_DATA_SEPARATOR as [|s0 sep'] eqn:Hsep;
    [rewrite contains_empty in Hpay; discriminate|].
  assert (split (camera_bytes a ++ (s0 :: sep') ++ payload) (s0 :: sep')
          = Returned [camera_bytes a; payload]) as Hsplit.
  { unfold split. rewrite PyExtra.split_scan_first by assumption.
    rewrite PyExtra.split_scan_no_match by assumption. reflexivity. }
  split; [exact Hsplit|].
  unfold Udp.iteration, Udp.receive_one, try_except, bind, get, lift.
  cbn [fst snd]. rewrite Hsk. rewrite Hsplit.
  destruct a; cbn; rewrite Himg; reflexivity.
Qed.

(** X7.  A datagram whose payload holds the separator once more is
    dropped without a frame and without a log record, even when its id is
    a known camera: the split has no limit, so the payload is cut too. *)
Theorem separator_in_payload_drops_datagram (camera_id payload : bytes)
    (c : UdpClient) (sk : Socket) :
  socket c = Some sk ->
  UDP_DATA_SEPARATOR <> [] ->
  contains UDP_DATA_SEPARATOR
    (camera_id ++ removelast UDP_DATA_SEPARATOR) = false ->
  contains UDP_DATA_SEPARATOR payload = true ->
  iteration (recv_returns (camera_id ++ UDP_DATA_SEPARATOR ++ payload)) c
  = (Returned tt, c, []).
Proof.
  intros Hsk Hne Hid Hpay.
  destruct UDP_DATA_SEPARATOR as [|s0 sep'] eqn:Hsep; [congruence|].
  unfold Udp.iteration, Udp.receive_one, try_except, bind, get, lift, split.
  cbn [fst snd]. rewrite Hsk.
  rewrite PyExtra.split_scan_first by assumption.
  destruct (PyExtra.split_scan_match_two s0 sep' payload [] Hpay)
    as (p & q & tl & ->).
  reflexivity.
Qed.
End Loop.

(** Inputs the theorems above hold at. *)

Lemma datagrams_handled_in_order_witness :
  _receive_frames colon one_pixel
    (map Recv [recv_returns camera_a_datagram; recv_raises OSError;
               recv_returns camera_c_datagram]) running_client
  = (Returned Blocked, running_client,
     [Emit (frame_a_received (to_QImage (cvtColor_BGR2RGB
              {| height := 1; width := 1; channel := 3;
                 data := [x00; x00; x00] |})));
      Log ERROR (frame_receive_error OSError);
      Log WARNING (unknown_camera_id [67%N])]).
Proof.
  exact (datagrams_handled_in_order colon one_pixel
           [recv_returns camera_a_datagram; recv_raises OSError;
            recv_returns camera_c_datagram] running_client eq_refl).
Defined.

Lemma one_pass_after_disconnect_witness :
  _receive_frames colon one_pixel
    (map Recv [recv_returns camera_c_datagram]
       ++ Disconnect :: Recv (recv_returns camera_a_datagram)
       :: [Recv (recv_returns camera_a_datagram)]) running_client
  = (Returned Exited, state_of (disconnect running_client),
     [Log WARNING (unknown_camera_id [67%N]); Close;
      Log INFO udp_disconnected;
      Emit (frame_a_received (to_QImage (cvtColor_BGR2RGB
              {| height := 1; width := 1; channel := 3;
                 data := [x00; x00; x00] |})))]).
Proof.
  exact (proj1 (one_pass_after_disconnect colon one_pixel
                  [recv_returns camera_c_datagram]
                  (recv_returns camera_a_datagram)
                  [Recv (recv_returns camera_a_datagram)] running_client
                  eq_refl)).
Defined.

Lemma frame_only_for_known_camera_witness :
  exists data image_data frame a,
    recv_returns camera_a_datagram = recv_returns data
    /\ split data colon = Returned [camera_bytes a; image_data]
    /\ one_pixel image_data = Returned (Some frame)
    /\ frame_a_received
         {| q_data := [x00; x00; x00]; q_width := 1; q_height := 1;
            q_bytes_per_line := 3; q_format := Format_RGB888 |}
       = camera_signal a (to_QImage (cvtColor_BGR2RGB frame))
    /\ effects (iteration colon one_pixel (recv_returns camera_a_datagram)
                  running_client)
       = [Emit (frame_a_received
                  {| q_data := [x00; x00; x00]; q_width := 1; q_height := 1;
                     q_bytes_per_line := 3; q_format := Format_RGB888 |})].
Proof.
  apply (frame_only_for_known_camera colon one_pixel
           (recv_returns camera_a_datagram) running_client).
  left. reflexivity.
Defined.

Lemma framed_datagram_round_trip_witness :
  split (camera_bytes false ++ colon ++ [xff; xd8]) colon
  = Returned [camera_bytes false; [xff; xd8]]
  /\ iteration colon one_pixel
       (recv_returns (camera_bytes false ++ colon ++ [xff; xd8])) running_client
     = (Returned tt, running_client,
        [Emit (camera_signal false
                 (to_QImage (cvtColor_BGR2RGB
                    {| height := 1; width := 1; channel := 3;
                       data := [x00; x00; x00] |})))]).
Proof.
  exact (framed_datagram_round_trip colon one_pixel false [xff; xd8]
           running_client eq_refl eq_refl eq_refl eq_refl).
Defined.

Lemma separator_in_payload_drops_datagram_witness :
  iteration colon one_pixel
    (recv_returns ([x41] ++ colon ++ [xff; x3a; xd8])) running_client
  = (Returned tt, running_client, []).
Proof.
  apply (@separator_in_payload_drops_datagram colon one_pixel [x41]
           [xff; x3a; xd8] running_client {| bound := true |});
    [reflexivity | discriminate | reflexivity | reflexivity].
Defined.

End UdpExtra.

(** ** More on the manager *)

Module NetExtra.

Import Udp Net.

Section Machine.
Variable DetectedObject : Type.
Variable os : os_connect.

Local Abbreviation effect := (Net.effect DetectedObject).
Local Abbreviation event := (Net.event DetectedObject).
Local Abbreviation handle := (@Net.handle DetectedObject os).
Local Abbreviation run := (@Net.run DetectedObject os).

(** What each event does, in one equation. *)
Lemma handle_eq (ev : event) (s : NetworkManager) :
  handle ev s
  = match ev with
    | timeout =>
        if active (reconnect_timer s) then
          if (reconnect_attempts s >=? max_reconnect_attempts s)%Z
          then (Returned tt, stop_timer s, [Log WARNING max_reconnect_exceeded])
          else (Raised (no_such_attribute "is_connected"),
                set_reconnect_attempts (reconnect_attempts s + 1) s,
                Log INFO (reconnecting (reconnect_attempts s + 1)
                                       (max_reconnect_attempts s))
                  :: (if connected (tcp_client s)
                      then [] else [Tcp connect_to_server]))
        else (Returned tt, s, [])
    | tcp_connected =>
        (Returned tt,
         set_reconnect_attempts 0
           (stop_timer (set_tcp_client {| connected := true |} s)),
         [Emit (tcp_connection_status_changed true tcp_connected_text)])
    | tcp_disconnected =>
        (Returned tt, set_tcp_client {| connected := false |} s,
         [Emit (tcp_connection_status_changed false tcp_disconnected_text)])
    | tcp_connection_error error_msg =>
        if fits_c_int (reconnect_interval s)
        then (Returned tt,
              set_reconnect_timer (armed_timer (reconnect_interval s))
                (set_reconnect_attempts 0
                   (set_tcp_client {| connected := false |} s)),
              [Emit (tcp_connection_status_changed false
                       (tcp_error_text error_msg))])
        else (Raised OverflowError,
              set_reconnect_attempts 0
                (set_tcp_client {| connected := false |} s),
              [Emit (tcp_connection_status_changed false
                       (tcp_error_text error_msg))])
    | tcp_object_detected objects =>
        (Returned tt, s, map (fun o => Emit (object_detected o)) objects)
    | tcp_map_response response =>
        (Returned tt, s,
         [if String.prefix "OK" response
          then Log INFO map_response_ok
          else Log ERROR (map_response_error response)])
    | tcp_cctv_a_response response =>
        if String.eqb response "OK"
        then (Raised (no_such_attribute "is_connected"), s,
              [Log INFO (cctv_approved CCTV_A)])
        else (Returned tt, s, [Log ERROR (cctv_denied CCTV_A response)])
    | tcp_cctv_b_response response =>
        if String.eqb response "OK"
        then (Raised (no_such_attribute "is_connected"), s,
              [Log INFO (cctv_approved CCTV_B)])
        else (Returned tt, s, [Log ERROR (cctv_denied CCTV_B response)])
    | ui_start_services =>
        (Returned tt, s, [Log INFO services_starting; Tcp connect_to_server])
    | ui_stop_services =>
        (Returned tt,
         set_udp_client (state_of (disconnect (udp_client s)))
           (set_tcp_client {| connected := false |} s),
         Log INFO services_stopping :: Tcp disconnect_from_server
           :: UdpCall "disconnect"
           :: map InUdp (effects (disconnect (udp_client s))))
    | ui_request_cctv_a | ui_request_cctv_b =>
        (Raised (no_such_attribute "is_connected"), s, [])
    | ui_request_object_detail object_id =>
        (Returned tt, s, [Tcp (tcp_request_object_detail object_id)])
    | ui_request_map =>
        (Raised (no_such_attribute "stop_streaming"), s, [Tcp tcp_request_map])
    end.
Proof.
  destruct ev.
  - destruct (active (reconnect_timer s)) eqn:Hact.
    + rewrite NetProps.timeout_when_armed by assumption.
      destruct (Z.geb_spec (reconnect_attempts s) (max_reconnect_attempts s)).
      * apply NetProps.fire_at_ceiling. lia.
      * apply NetProps.fire_below_ceiling. lia.
    + apply NetProps.timeout_when_stopped. assumption.
  - reflexivity.
  - reflexivity.
  - apply NetProps.handle_connection_error_eq.
  - apply NetProps.handle_object_detected_eq.
  - cbn [Net.handle]. unfold _handle_map_response.
    destruct (String.prefix "OK" response); reflexivity.
  - apply NetProps.cctv_response_eq.
  - apply NetProps.cctv_response_eq.
  - reflexivity.
  - apply NetProps.stop_services_eq.
  - reflexivity.
  - reflexivity.
  - reflexivity.
  - reflexivity.
Qed.

Lemma run_cons' (ev : event) (evs : list event) (s : NetworkManager) :
  fst (run (ev :: evs) s) = fst (run evs (state_of (handle ev s)))
  /\ snd (run (ev :: evs) s)
     = effects (handle ev s) ++ snd (run evs (state_of (handle ev s))).
Proof. split; reflexivity. Qed.

Ltac by_event ev s :=
  rewrite (handle_eq ev s); destruct ev;
  [ destruct (active (reconnect_timer s)) eqn:?Hact;
    [ destruct (Z.geb_spec (reconnect_attempts s) (max_reconnect_attempts s))
    | ]
  | .. ];
  try match goal with
    | |- context [String.eqb ?r "OK"] => destruct (String.eqb r "OK")
    | |- context [fits_c_int ?z] => destruct (fits_c_int z)
    end;
  cbv [state_of effects result fst snd].

Ltac fields :=
  cbn [tcp_client udp_client reconnect_timer reconnect_interval
       max_reconnect_attempts reconnect_attempts active interval
       set_tcp_client set_udp_client set_reconnect_timer
       set_reconnect_attempts stop_timer QTimer_stop armed_timer] in *.

Lemma handle_keeps_range (ev : event) (s : NetworkManager) :
  attempts_in_range s ->
  attempts_in_range (state_of (handle ev s))
  /\ max_reconnect_attempts (state_of (handle ev s)) = max_reconnect_attempts s
  /\ reconnect_interval (state_of (handle ev s)) = reconnect_interval s.
Proof.
  unfold attempts_in_range. intros H.
  by_event ev s; fields; repeat split; lia.
Qed.

(** X8.  Whatever events arrive, in whatever order, the attempt count
    stays between 0 and the configured maximum, and the two configured
    values, the maximum and the interval, are never changed. *)
Theorem attempts_stay_in_range (evs : list event) (s : NetworkManager) :
  attempts_in_range s ->
  attempts_in_range (fst (run evs s))
  /\ max_reconnect_attempts (fst (run evs s)) = max_reconnect_attempts s
  /\ reconnect_interval (fst (run evs s)) = reconnect_interval s.
Proof.
  revert s. induction evs as [|ev evs IH]; intros s H; [auto|].
  destruct (run_cons' ev evs s) as [-> _].
  destruct (handle_keeps_range ev H) as (H1 & H2 & H3).
  destruct (IH _ H1) as (I1 & I2 & I3).
  split; [exact I1|]. split; congruence.
Qed.

Lemma handle_media_client (ev : event) (s : NetworkManager) :
  udp_client (state_of (handle ev s))
  = if is_stop_services ev
    then state_of (disconnect (udp_client s)) else udp_client s.
Proof. by_event ev s; reflexivity. Qed.

Lemma disconnect_twice (c : UdpClient) :
  state_of (disconnect (state_of (disconnect c))) = state_of (disconnect c).
Proof. destruct c as [[sk|] r th]; reflexivity. Qed.

Lemma disconnect_not_running (c : UdpClient) :
  is_running (state_of (disconnect c)) = false.
Proof. destruct c as [[sk|] r th]; reflexivity. Qed.

(** X9.  The manager never starts the media client.  After any sequence
    of events its media client is the one it had, or, when the sequence
    holds a [stop_services()], that client disconnected; so it is running
    afterwards only if it was running before and no stop occurred. *)
Theorem media_client_only_disconnected (evs : list event) (s : NetworkManager) :
  udp_client (fst (run evs s))
  = (if existsb is_stop_services evs
     then state_of (disconnect (udp_client s)) else udp_client s)
  /\ is_running (udp_client (fst (run evs s)))
     = is_running (udp_client s) && negb (existsb is_stop_services evs).
Proof.
  assert (forall evs s,
    udp_client (fst (run evs s))
    = if existsb is_stop_services evs
      then state_of (disconnect (udp_client s)) else udp_client s) as Hm.
  { clear evs s. induction evs as [|ev evs IH]; intros s; [reflexivity|].
    destruct (run_cons' ev evs s) as [-> _].
    rewrite IH, handle_media_client. cbn [existsb].
    destruct (is_stop_services ev); cbn [orb]; [|reflexivity].
    rewrite disconnect_twice.
    destruct (existsb is_stop_services evs); reflexivity. }
  split; [apply Hm|].
  rewrite Hm. destruct (existsb is_stop_services evs); cbn [negb].
  - rewrite disconnect_not_running, andb_false_r. reflexivity.
  - rewrite andb_true_r. reflexivity.
Qed.

Lemma connect_attempts_emits (objects : list DetectedObject) :
  connect_attempts (map (fun o => Emit (object_detected o)) objects
                    : list effect) = 0%nat.
Proof. induction objects as [|o tl IH]; [reflexivity|exact IH]. Qed.

Lemma connect_attempts_in_udp (t : list Udp.effect) :
  connect_attempts (map InUdp t : list effect) = 0%nat.
Proof. induction t as [|e tl IH]; [reflexivity|exact IH]. Qed.

Lemma handle_without_error (ev : event) (s : NetworkManager) :
  active (reconnect_timer s) = false ->
  is_connection_error ev = false ->
  active (reconnect_timer (state_of (handle ev s))) = false
  /\ connect_attempts (effects (handle ev s))
     = (if is_start_services ev then 1 else 0)%nat.
Proof.
  intros H He.
  by_event ev s; try discriminate; try congruence; fields;
    (split; [first [assumption | reflexivity]|]); try reflexivity.
  - apply connect_attempts_emits.
  - destruct (String.prefix "OK" response); reflexivity.
  - apply (connect_attempts_in_udp (effects (disconnect (udp_client s)))).
Qed.

(** X10.  The manager reconnects on its own only after a connection
    error.  From a state with the timer stopped, a sequence of events
    without a connection error, clean disconnects and timer signals
    included, leaves the timer stopped and calls [connect_to_server()]
    exactly once per [start_services()]. *)
Theorem no_reconnect_without_error (evs : list event) (s : NetworkManager) :
  active (reconnect_timer s) = false ->
  existsb is_connection_error evs = false ->
  active (reconnect_timer (fst (run evs s))) = false
  /\ connect_attempts (snd (run evs s))
     = List.length (filter is_start_services evs).
Proof.
  revert s. induction evs as [|ev evs IH]; intros s H He; [auto|].
  cbn [existsb] in He. apply orb_false_iff in He. destruct He as [He Hes].
  destruct (run_cons' ev evs s) as [-> ->].
  destruct (handle_without_error ev s H He) as [H1 H2].
  destruct (IH _ H1 Hes) as [I1 I2].
  split; [exact I1|].
  rewrite NetProps.connect_attempts_app, H2, I2. cbn [filter].
  destruct (is_start_services ev); reflexivity.
Qed.

Lemma tcp_statuses_app (t1 t2 : list effect) :
  tcp_statuses (t1 ++ t2) = tcp_statuses t1 ++ tcp_statuses t2.
Proof.
  induction t1 as [|e t1 IH]; [reflexivity|].
  cbn [app tcp_statuses]. destruct e as [| [] | | |]; cbn; rewrite IH; reflexivity.
Qed.

Lemma tcp_statuses_in_udp (t : list Udp.effect) :
  tcp_statuses (map InUdp t : list effect) = []
  /\ existsb is_media_signal (map InUdp t : list effect) = false.
Proof. induction t as [|e tl [IH1 IH2]]; split; auto. Qed.

Lemma tcp_statuses_objects (objects : list DetectedObject) :
  tcp_statuses (map (fun o => Emit (object_detected o)) objects
                : list effect) = []
  /\ existsb is_media_signal
       (map (fun o => Emit (object_detected o)) objects : list effect) = false.
Proof. induction objects as [|o tl [IH1 IH2]]; split; auto. Qed.

Lemma handle_statuses (ev : event) (s : NetworkManager) :
  tcp_statuses (effects (handle ev s)) = status_of ev
  /\ existsb is_media_signal (effects (handle ev s)) = false.
Proof.
  by_event ev s; try (split; reflexivity).
  - destruct (connected (tcp_client s)); split; reflexivity.
  - apply tcp_statuses_objects.
  - destruct (String.prefix "OK" response); split; reflexivity.
  - apply (tcp_statuses_in_udp (effects (disconnect (udp_client s)))).
Qed.

(** X11.  The control-channel status signals a sequence of events gives
    rise to are exactly those of its lifecycle events, one each and in
    their order: connected with [True], disconnected and connection error
    with [False].  No other event announces a status, and no handler
    emits a media status or a frame signal. *)
Theorem statuses_follow_lifecycle (evs : list event) (s : NetworkManager) :
  tcp_statuses (snd (run evs s)) = flat_map status_of evs
  /\ existsb is_media_signal (snd (run evs s)) = false.
Proof.
  revert s. induction evs as [|ev evs IH]; intros s; [split; reflexivity|].
  destruct (run_cons' ev evs s) as [_ ->].
  destruct (handle_statuses ev s) as [H1 H2].
  destruct (IH (state_of (handle ev s))) as [I1 I2].
  split.
  - rewrite tcp_statuses_app, H1, I1. reflexivity.
  - rewrite existsb_app, H2, I2. reflexivity.
Qed.

Lemma handle_calls (ev : event) (s : NetworkManager) (e : effect) :
  In e (effects (handle ev s)) ->
  e <> Tcp tcp_request_cctv_a /\ e <> Tcp tcp_request_cctv_b
  /\ (forall name, e = UdpCall name -> name = "disconnect"%string).
Proof.
  assert (forall t : list Udp.effect, In e (map InUdp t : list effect) ->
            e <> Tcp tcp_request_cctv_a /\ e <> Tcp tcp_request_cctv_b
            /\ (forall name, e = UdpCall name -> name = "disconnect"%string))
    as Hudp.
  { intros t Hin. apply in_map_iff in Hin. destruct Hin as (x & <- & _).
    repeat split; try discriminate. }
  by_event ev s; intros Hin;
    try destruct (connected (tcp_client s));
    try destruct (String.prefix "OK" response);
    repeat match goal with
      | H : In _ (map InUdp _) |- _ => exact (Hudp _ H)
      | H : In _ (map _ _) |- _ =>
          apply in_map_iff in H; destruct H as (x & <- & _)
      | H : In _ (_ :: _) |- _ => destruct H as [<-|H]
      | H : In _ [] |- _ => destruct H
      end;
    repeat split; try discriminate;
    intros name Hn; injection Hn as <-; reflexivity.
Qed.

(** X12.  No sequence of events makes the manager send a CCTV request on
    the control channel, and the only call it ever gets through to the
    media client is [disconnect()]: [request_cctv_a()] and
    [request_cctv_b()] end at the [is_connected()] of lines 145 and 151,
    before the request is sent. *)
Theorem cctv_request_never_sent (evs : list event) (s : NetworkManager)
    (e : effect) :
  In e (snd (run evs s)) ->
  e <> Tcp tcp_request_cctv_a /\ e <> Tcp tcp_request_cctv_b
  /\ (forall name, e = UdpCall name -> name = "disconnect"%string).
Proof.
  revert s. induction evs as [|ev evs IH]; intros s Hin; [destruct Hin|].
  destruct (run_cons' ev evs s) as [_ Hs]. rewrite Hs in Hin.
  apply in_app_or in Hin. destruct Hin as [Hin|Hin].
  - exact (handle_calls ev s e Hin).
  - exact (IH _ Hin).
Qed.

(** X13.  With the timer armed and the control channel down, n timer
    fires in a row call [connect_to_server()] exactly min(n, maximum -
    count) times and raise the count by as much; the timer is still armed
    afterwards exactly when n did not exceed that number. *)
Theorem fires_use_exactly_the_budget (n : nat) (s : NetworkManager) :
  active (reconnect_timer s) = true ->
  connected (tcp_client s) = false ->
  connect_attempts (snd (run (repeat timeout n) s)) = Nat.min n (budget s)
  /\ reconnect_attempts (fst (run (repeat timeout n) s))
     = (reconnect_attempts s + Z.of_nat (Nat.min n (budget s)))%Z
  /\ active (reconnect_timer (fst (run (repeat timeout n) s)))
     = (n <=? budget s)%nat.
Proof.
  revert s. induction n as [|n IH]; intros s Hact Hdown.
  - cbn. repeat split; [lia|assumption].
  - change (repeat timeout (S n))
      with (@timeout DetectedObject :: repeat timeout n).
    destruct (run_cons' timeout (repeat timeout n) s) as [-> ->].
    rewrite (handle_eq timeout s), Hact.
    destruct (Z.geb_spec (reconnect_attempts s) (max_reconnect_attempts s))
      as [Hge|Hlt]; unfold state_of, effects; cbn [fst snd].
    + rewrite NetProps.fires_when_stopped by reflexivity.
      assert (budget s = 0%nat) as -> by (unfold budget; lia).
      cbn [fst snd]. rewrite Nat.min_0_r.
      repeat split. cbn. lia.
    + rewrite Hdown.
      destruct (IH (set_reconnect_attempts (reconnect_attempts s + 1) s)
                  Hact Hdown) as (I1 & I2 & I3).
      assert (budget s
              = S (budget (set_reconnect_attempts (reconnect_attempts s + 1) s)))
        as Hb by (unfold budget; fields; lia).
      rewrite Hb. rewrite NetProps.connect_attempts_app, I1, I2, I3.
      fields. repeat split.
      rewrite <- Nat.succ_min_distr. lia.
Qed.

Lemma handle_keeps_state (ev : event) (s : NetworkManager) :
  is_request_or_response ev = true -> state_of (handle ev s) = s.
Proof. intros H. by_event ev s; try discriminate; reflexivity. Qed.

(** X14.  Requests and responses leave the manager as it is: after any
    sequence of [start_services()], CCTV, map and object-detail requests,
    and of object-detection, map and CCTV responses, approved or denied,
    every field of the manager, the media client included, is what it
    was. *)
Theorem requests_and_responses_keep_state (evs : list event)
    (s : NetworkManager) :
  forallb is_request_or_response evs = true -> fst (run evs s) = s.
Proof.
  revert s. induction evs as [|ev evs IH]; intros s H; [reflexivity|].
  cbn [forallb] in H. apply andb_true_iff in H. destruct H as [H Hs].
  destruct (run_cons' ev evs s) as [-> _].
  rewrite handle_keeps_state by assumption. apply IH. assumption.
Qed.

Lemma forwarded_app (t1 t2 : list Udp.effect) :
  forwarded DetectedObject (t1 ++ t2)
  = forwarded DetectedObject t1 ++ forwarded DetectedObject t2.
Proof.
  induction t1 as [|e t1 IH]; [reflexivity|].
  destruct e; cbn; rewrite IH; reflexivity.
Qed.

Lemma forwarded_length (t : list Udp.effect) :
  (List.length (forwarded DetectedObject t) <= List.length t)%nat.
Proof. induction t as [|[] t IH]; cbn; lia. Qed.

Lemma pass_effects_le_one (sep : bytes)
    (imdecode : bytes -> outcome (option ndarray)) (r : recv_result)
    (c : UdpClient) :
  (List.length (effects (iteration sep imdecode r c)) <= 1)%nat.
Proof.
  unfold Udp.iteration, Udp.receive_one, try_except, bind, get, lift, split,
    tell, ret, raise, effects.
  cbn. destruct (socket c); cbn; [|lia].
  destruct r as [data|e]; cbn; [|lia].
  destruct sep as [|s0 sep]; cbn; [lia|].
  destruct (split_scan (s0 :: sep) 0 [] data) as [|p0 [|p1 [|p2 tl]]];
    cbn; try lia.
  destruct (decode_utf8 p0) as [cid|e]; cbn; [|lia].
  destruct (imdecode p1) as [[f|]|e]; cbn; try lia.
  destruct (str_eqb cid camera_A); cbn; [lia|].
  destruct (str_eqb cid camera_B); cbn; lia.
Qed.

Lemma loop_effects_recv (sep : bytes)
    (imdecode : bytes -> outcome (option ndarray)) (rs : list recv_result)
    (c : UdpClient) :
  is_running c = true ->
  effects (_receive_frames sep imdecode (map Recv rs) c)
  = flat_map (fun r => effects (iteration sep imdecode r c)) rs.
Proof.
  intros Hrun.
  pose proof (UdpExtra.loop_recv_list sep imdecode rs [] c Hrun) as H.
  rewrite app_nil_r in H. rewrite H.
  unfold Udp._receive_frames. rewrite Hrun. cbn [Udp.receive_passes].
  cbv [ret result state_of effects fst snd]. apply app_nil_r.
Qed.

Lemma forwarded_flat_map (A : Type) (f : A -> list Udp.effect) (l : list A) :
  forwarded DetectedObject (flat_map f l)
  = flat_map (fun x => forwarded DetectedObject (f x)) l.
Proof.
  induction l as [|x l IH]; [reflexivity|].
  cbn [flat_map]. rewrite forwarded_app, IH. reflexivity.
Qed.

(** X15.  What subscribers of the manager see of a running media client:
    the frames of the datagrams in the order of arrival, each pass
    forwarding at most one signal, so never more signals than
    datagrams. *)
Theorem frames_forwarded_in_order (sep : bytes)
    (imdecode : bytes -> outcome (option ndarray)) (rs : list recv_result)
    (c : UdpClient) :
  is_running c = true ->
  forwarded DetectedObject
    (effects (_receive_frames sep imdecode (map Recv rs) c))
  = flat_map (fun r => forwarded DetectedObject
                         (effects (iteration sep imdecode r c))) rs
  /\ (List.length (forwarded DetectedObject
                     (effects (_receive_frames sep imdecode (map Recv rs) c)))
      <= List.length rs)%nat.
Proof.
  intros Hrun. rewrite loop_effects_recv by assumption.
  rewrite forwarded_flat_map. split; [reflexivity|].
  clear Hrun. induction rs as [|r rs IH]; [cbn; lia|].
  cbn [flat_map]. rewrite length_app. cbn [List.length].
  pose proof (forwarded_length (effects (iteration sep imdecode r c))).
  pose proof (pass_effects_le_one sep imdecode r c).
  lia.
Qed.

End Machine.

(** Inputs the theorems above hold at. *)

Lemma attempts_stay_in_range_witness :
  attempts_in_range fresh
  /\ attempts_in_range
       (fst (Net.run (DetectedObject := unit) bind_succeeds
               [tcp_connection_error "refused"%string; timeout; timeout;
                tcp_connected; timeout] fresh))
  /\ max_reconnect_attempts
       (fst (Net.run (DetectedObject := unit) bind_succeeds
               [tcp_connection_error "refused"%string; timeout; timeout;
                tcp_connected; timeout] fresh)) = 3%Z.
Proof.
  assert (attempts_in_range fresh) as H by (unfold attempts_in_range; cbn; lia).
  destruct (@attempts_stay_in_range unit bind_succeeds
              [tcp_connection_error "refused"%string; timeout; timeout;
               tcp_connected; timeout] fresh H) as (H1 & H2 & _).
  split; [exact H|]. split; [exact H1|exact H2].
Defined.

Lemma no_reconnect_without_error_witness :
  active (reconnect_timer
            (fst (Net.run (DetectedObject := unit) bind_succeeds
                    [ui_start_services; tcp_connected; tcp_disconnected;
                     timeout; ui_start_services] fresh))) = false
  /\ connect_attempts
       (snd (Net.run (DetectedObject := unit) bind_succeeds
               [ui_start_services; tcp_connected; tcp_disconnected;
                timeout; ui_start_services] fresh)) = 2%nat.
Proof.
  exact (@no_reconnect_without_error unit bind_succeeds
           [ui_start_services; tcp_connected; tcp_disconnected;
            timeout; ui_start_services] fresh eq_refl eq_refl).
Defined.

Lemma cctv_request_never_sent_witness :
  In (UdpCall "disconnect")
     (snd (Net.run (DetectedObject := unit) bind_succeeds
             [ui_request_cctv_a; ui_stop_services; ui_request_cctv_b] fresh))
  /\ UdpCall (DetectedObject := unit) "disconnect" <> Tcp tcp_request_cctv_a.
Proof.
  assert (In (UdpCall "disconnect")
            (snd (Net.run (DetectedObject := unit) bind_succeeds
                    [ui_request_cctv_a; ui_stop_services; ui_request_cctv_b]
                    fresh))) as H
    by (cbn; right; right; left; reflexivity).
  split; [exact H|].
  exact (proj1 (@cctv_request_never_sent unit bind_succeeds
                  [ui_request_cctv_a; ui_stop_services; ui_request_cctv_b]
                  fresh (UdpCall "disconnect") H)).
Defined.

Lemma fires_use_exactly_the_budget_witness :
  connect_attempts
    (snd (Net.run (DetectedObject := unit) bind_succeeds
            (repeat timeout 5) armed)) = 3%nat
  /\ reconnect_attempts
       (fst (Net.run (DetectedObject := unit) bind_succeeds
               (repeat timeout 5) armed)) = 3%Z
  /\ active (reconnect_timer
       (fst (Net.run (DetectedObject := unit) bind_succeeds
               (repeat timeout 5) armed))) = false.
Proof.
  exact (@fires_use_exactly_the_budget unit bind_succeeds 5 armed
           eq_refl eq_refl).
Defined.

Lemma requests_and_responses_keep_state_witness :
  fst (Net.run (DetectedObject := nat) bind_succeeds
         [ui_request_map; tcp_cctv_a_response "OK"%string;
          tcp_object_detected [1%nat; 2%nat]; ui_request_cctv_b;
          tcp_map_response "ERR"%string] streaming_manager)
  = streaming_manager.
Proof.
  exact (@requests_and_responses_keep_state nat bind_succeeds
           [ui_request_map; tcp_cctv_a_response "OK"%string;
            tcp_object_detected [1%nat; 2%nat]; ui_request_cctv_b;
            tcp_map_response "ERR"%string] streaming_manager eq_refl).
Defined.

Lemma frames_forwarded_in_order_witness :
  forwarded unit
    (effects (_receive_frames colon one_pixel
                (map Recv [recv_returns camera_a_datagram;
                           recv_returns camera_c_datagram;
                           recv_returns (camera_bytes false ++ colon ++ [xff])])
                running_client))
  = flat_map (fun r => forwarded unit
                         (effects (iteration colon one_pixel r running_client)))
      [recv_returns camera_a_datagram; recv_returns camera_c_datagram;
       recv_returns (camera_bytes false ++ colon ++ [xff])]
  /\ (List.length
        (forwarded unit
           (effects (_receive_frames colon one_pixel
                       (map Recv [recv_returns camera_a_datagram;
                                  recv_returns camera_c_datagram;
                                  recv_returns
                                    (camera_bytes false ++ colon ++ [xff])])
                       running_client))) <= 3)%nat.
Proof.
  exact (@frames_forwarded_in_order unit colon one_pixel
           [recv_returns camera_a_datagram; recv_returns camera_c_datagram;
            recv_returns (camera_bytes false ++ colon ++ [xff])]
           running_client eq_refl).
Defined.

End NetExtra.
